(** * The portal state store of the ApeChain bridge widget

    A shallow embedding of [src/lib/store/usePortalStore.ts]: the zustand
    store whose actions are immer producers over one [PortalState] record.
    Every action [set(produce(recipe))] is a total function from the
    previous snapshot to the next one, so the store is modelled by explicit
    state passing: one Rocq function per action, and a [step] function over
    the type of action calls.

    The modules the store imports but which are defined elsewhere
    ([../utils/utils.ts], [../utils/constants.ts], the two value classes
    and [@decent.xyz/box-common]) are gathered into the interface
    [Collaborators]; every result below holds for all of its instances. *)

From Stdlib Require Import ZArith Bool Ascii String List Lia.
From Stdlib Require Import Floats.SpecFloat.
Import ListNotations.
Local Open Scope string_scope.

(** ** JavaScript numbers

    A [number] is an IEEE-754 binary64 value.  [spec_float] is the
    Standard Library's inductive description of these values (signed
    zeros, signed infinities, NaN, finite values [m * 2^e]); the doubles
    proper are the values [is_double] accepts. *)
Module JsNumber.

Definition number : Type := spec_float.

Definition prec : Z := 53.
Definition emax : Z := 1024.

Definition is_double (x : number) : bool := valid_binary prec emax x.

Definition NaN : number := S754_nan.

(** The double of an integer literal. *)
Definition of_Z (z : Z) : number := binary_normalize prec emax z 0 false.

(** The double of the decimal literal [n / 10^k] (correctly rounded,
    as the division of two exactly represented integers is). *)
Definition of_decimal (n : Z) (k : nat) : number :=
  SFdiv prec emax (of_Z n) (of_Z (10 ^ Z.of_nat k)).

(** [ToBoolean] on numbers: [+0], [-0] and [NaN] are falsy. *)
Definition truthy (x : number) : bool :=
  match x with
  | S754_zero _ => false
  | S754_nan => false
  | S754_infinity _ => true
  | S754_finite _ _ _ => true
  end.

(** [x === y], [x !== y] and [x < y] on numbers. *)
Definition strict_eq (x y : number) : bool := SFeqb x y.
Definition strict_neq (x y : number) : bool := negb (SFeqb x y).
Definition lt (x y : number) : bool := SFltb x y.

End JsNumber.
Import JsNumber.

(** ** Data model *)

(** Modelled from the spec: the enum [InputType] of
    [../utils/constants.ts], which records the side whose amount was
    edited last (Source | Destination). *)
Inductive InputType : Type :=
  | Source
  | Destination.

Definition InputType_eqb (a b : InputType) : bool :=
  match a, b with
  | Source, Source => true
  | Destination, Destination => true
  | _, _ => false
  end.

(** Modelled from the spec: the chain identifiers [ChainId] of
    [@decent.xyz/box-common]; the store names two of them. *)
Inductive ChainId : Type :=
  | ETHEREUM
  | APE
  | OtherChain (id : Z).

(** Modelled from the spec: a [TokenInfo] record of
    [@decent.xyz/box-common] carries at least a chain identifier, a
    contract or native address, decimals and a symbol. *)
Record TokenInfo : Type := mkTokenInfo {
  chainId : ChainId;
  address : string;
  decimals : Z;
  symbol : string
}.

(** Modelled from the spec: the class [TokenTransactionData]
    ([../classes/TokenTransactionData.ts]) wraps a token descriptor, the
    amount string as the user entered it and a derived USD-value string. *)
Record TokenTransactionData : Type := mkTokenTransactionData {
  token : TokenInfo;
  amount : string;
  amountUsd : string
}.

Definition set_amount (a : string) (d : TokenTransactionData)
  : TokenTransactionData :=
  {| token := token d; amount := a; amountUsd := amountUsd d |}.

Definition set_amountUsd (a : string) (d : TokenTransactionData)
  : TokenTransactionData :=
  {| token := token d; amount := amount d; amountUsd := a |}.

(** Modelled from the spec: the class [BridgeTransactionData]
    ([../classes/BridgeTransactionData.ts]) holds the transaction-wide
    fields: slippage percentage, application fee, gas fee, their USD
    equivalents, the optional price-impact warning, the optional time
    warning, the estimated transaction time and the source-chain gas-token
    USD value.  The fields carry the names under which the store writes
    them; [setApplicationFeeUsd] and [setGasFeeUsd] are the two USD
    equivalents.  [W] is the type of the price-impact warning payload. *)
Record BridgeTransactionData (W : Type) : Type := mkBridgeTransactionData {
  slippagePercentage : number;
  applicationFee : number;
  setApplicationFeeUsd : number;
  gasFee : number;
  setGasFeeUsd : number;
  sourceChainGasTokenUsdValue : number;
  priceImpactWarning : option W;
  timeWarning : option string;
  estimatedTxTime : option number
}.

Arguments mkBridgeTransactionData {W}.
Arguments slippagePercentage {W}.
Arguments applicationFee {W}.
Arguments setApplicationFeeUsd {W}.
Arguments gasFee {W}.
Arguments setGasFeeUsd {W}.
Arguments sourceChainGasTokenUsdValue {W}.
Arguments priceImpactWarning {W}.
Arguments timeWarning {W}.
Arguments estimatedTxTime {W}.

Section BridgeFieldWrites.
Context {W : Type}.
Local Abbreviation BTD := (BridgeTransactionData W).

Definition set_slippagePercentage (v : number) (b : BTD) : BTD :=
  mkBridgeTransactionData v (applicationFee b) (setApplicationFeeUsd b)
    (gasFee b) (setGasFeeUsd b) (sourceChainGasTokenUsdValue b)
    (priceImpactWarning b) (timeWarning b) (estimatedTxTime b).

Definition set_applicationFee (v : number) (b : BTD) : BTD :=
  mkBridgeTransactionData (slippagePercentage b) v (setApplicationFeeUsd b)
    (gasFee b) (setGasFeeUsd b) (sourceChainGasTokenUsdValue b)
    (priceImpactWarning b) (timeWarning b) (estimatedTxTime b).

Definition set_setApplicationFeeUsd (v : number) (b : BTD) : BTD :=
  mkBridgeTransactionData (slippagePercentage b) (applicationFee b) v
    (gasFee b) (setGasFeeUsd b) (sourceChainGasTokenUsdValue b)
    (priceImpactWarning b) (timeWarning b) (estimatedTxTime b).

Definition set_gasFee (v : number) (b : BTD) : BTD :=
  mkBridgeTransactionData (slippagePercentage b) (applicationFee b)
    (setApplicationFeeUsd b) v (setGasFeeUsd b)
    (sourceChainGasTokenUsdValue b)
    (priceImpactWarning b) (timeWarning b) (estimatedTxTime b).

Definition set_setGasFeeUsd (v : number) (b : BTD) : BTD :=
  mkBridgeTransactionData (slippagePercentage b) (applicationFee b)
    (setApplicationFeeUsd b) (gasFee b) v (sourceChainGasTokenUsdValue b)
    (priceImpactWarning b) (timeWarning b) (estimatedTxTime b).

Definition set_sourceChainGasTokenUsdValue (v : number) (b : BTD) : BTD :=
  mkBridgeTransactionData (slippagePercentage b) (applicationFee b)
    (setApplicationFeeUsd b) (gasFee b) (setGasFeeUsd b) v
    (priceImpactWarning b) (timeWarning b) (estimatedTxTime b).

Definition set_priceImpactWarning (v : option W) (b : BTD) : BTD :=
  mkBridgeTransactionData (slippagePercentage b) (applicationFee b)
    (setApplicationFeeUsd b) (gasFee b) (setGasFeeUsd b)
    (sourceChainGasTokenUsdValue b) v (timeWarning b) (estimatedTxTime b).

Definition set_timeWarning (v : option string) (b : BTD) : BTD :=
  mkBridgeTransactionData (slippagePercentage b) (applicationFee b)
    (setApplicationFeeUsd b) (gasFee b) (setGasFeeUsd b)
    (sourceChainGasTokenUsdValue b) (priceImpactWarning b) v
    (estimatedTxTime b).

Definition set_estimatedTxTime (v : option number) (b : BTD) : BTD :=
  mkBridgeTransactionData (slippagePercentage b) (applicationFee b)
    (setApplicationFeeUsd b) (gasFee b) (setGasFeeUsd b)
    (sourceChainGasTokenUsdValue b) (priceImpactWarning b) (timeWarning b)
    v.
End BridgeFieldWrites.

(** ** The imported collaborators *)

Class Collaborators : Type := {
  (** [../utils/constants.ts] *)
  PriceImpactWarning : Type;
  WARNING_PRICE_IMPACT : number -> PriceImpactWarning;
  WARNING_THRESHOLD_PRICE_IMPACT : number;
  WARNING_THRESHOLD_FIVE_MINUTES : number;
  (** [../utils/utils.ts] *)
  ApeCoinMainnetEthereum : TokenInfo;
  isTokenPairStable : string -> string -> bool;
  secondsToReadableTime : number -> string;
  (** [@decent.xyz/box-common]: the lookup fails on an unsupported chain. *)
  getNativeTokenInfoOrFail : ChainId -> option TokenInfo;
  (** [../classes/BridgeTransactionData.ts]: the two static constants, the
      object a bare [new BridgeTransactionData()] builds, and the two
      methods the store delegates to. *)
  DEFAULT_SLIPPAGE : number;
  STABLE_SWAP_SLIPPAGE : number;
  new_BridgeTransactionData : BridgeTransactionData PriceImpactWarning;
  BridgeTransactionData_resetTransactionData :
    BridgeTransactionData PriceImpactWarning ->
    BridgeTransactionData PriceImpactWarning;
  BridgeTransactionData_resetSlippage :
    BridgeTransactionData PriceImpactWarning ->
    BridgeTransactionData PriceImpactWarning;
  (** [../classes/TokenTransactionData.ts]: what the constructor stores
      when an argument is left out. *)
  defaultAmount : string;
  defaultAmountUsd : string;
  (** The language's [Number(s)] conversion of a string. *)
  Number : string -> number
}.

(** Modelled from the spec: [new TokenTransactionData(token, amount)]
    carries the given token and amount. *)
Definition new_TokenTransactionData `{Collaborators}
  (t : TokenInfo) (a : option string) : TokenTransactionData :=
  {| token := t;
     amount := match a with Some x => x | None => defaultAmount end;
     amountUsd := defaultAmountUsd |}.

(** ** The store *)

Section Store.
Context {C : Collaborators}.

Local Abbreviation BridgeData := (BridgeTransactionData PriceImpactWarning).

(** [PortalState], together with the two extra entries the store object
    is created with ([destinationChain], and [bridgeTransaction], which is
    [undefined] and which no action writes). *)
Record PortalState : Type := mkPortalState {
  sourceToken : TokenTransactionData;
  destinationToken : TokenTransactionData;
  stashedToken : option TokenTransactionData;
  bridgeTransactionData : BridgeData;
  destinationChain : ChainId;
  bridgeTransaction : option Empty_set;
  tokenApprovalTxHash : option string;
  lastChanged : InputType;
  hasUserUpdatedTokens : bool;
  nonStableSlippage : number
}.

(** Writes of one top-level entry of the draft. *)
Definition with_sourceToken (v : TokenTransactionData) (s : PortalState)
  : PortalState :=
  mkPortalState v (destinationToken s) (stashedToken s)
    (bridgeTransactionData s) (destinationChain s) (bridgeTransaction s)
    (tokenApprovalTxHash s) (lastChanged s) (hasUserUpdatedTokens s)
    (nonStableSlippage s).

Definition with_destinationToken (v : TokenTransactionData) (s : PortalState)
  : PortalState :=
  mkPortalState (sourceToken s) v (stashedToken s)
    (bridgeTransactionData s) (destinationChain s) (bridgeTransaction s)
    (tokenApprovalTxHash s) (lastChanged s) (hasUserUpdatedTokens s)
    (nonStableSlippage s).

Definition with_stashedToken (v : option TokenTransactionData)
  (s : PortalState) : PortalState :=
  mkPortalState (sourceToken s) (destinationToken s) v
    (bridgeTransactionData s) (destinationChain s) (bridgeTransaction s)
    (tokenApprovalTxHash s) (lastChanged s) (hasUserUpdatedTokens s)
    (nonStableSlippage s).

Definition with_bridgeTransactionData (v : BridgeData) (s : PortalState)
  : PortalState :=
  mkPortalState (sourceToken s) (destinationToken s) (stashedToken s)
    v (destinationChain s) (bridgeTransaction s)
    (tokenApprovalTxHash s) (lastChanged s) (hasUserUpdatedTokens s)
    (nonStableSlippage s).

Definition with_tokenApprovalTxHash (v : option string) (s : PortalState)
  : PortalState :=
  mkPortalState (sourceToken s) (destinationToken s) (stashedToken s)
    (bridgeTransactionData s) (destinationChain s) (bridgeTransaction s)
    v (lastChanged s) (hasUserUpdatedTokens s) (nonStableSlippage s).

Definition with_lastChanged (v : InputType) (s : PortalState) : PortalState :=
  mkPortalState (sourceToken s) (destinationToken s) (stashedToken s)
    (bridgeTransactionData s) (destinationChain s) (bridgeTransaction s)
    (tokenApprovalTxHash s) v (hasUserUpdatedTokens s) (nonStableSlippage s).

Definition with_hasUserUpdatedTokens (v : bool) (s : PortalState)
  : PortalState :=
  mkPortalState (sourceToken s) (destinationToken s) (stashedToken s)
    (bridgeTransactionData s) (destinationChain s) (bridgeTransaction s)
    (tokenApprovalTxHash s) (lastChanged s) v (nonStableSlippage s).

Definition with_nonStableSlippage (v : number) (s : PortalState)
  : PortalState :=
  mkPortalState (sourceToken s) (destinationToken s) (stashedToken s)
    (bridgeTransactionData s) (destinationChain s) (bridgeTransaction s)
    (tokenApprovalTxHash s) (lastChanged s) (hasUserUpdatedTokens s) v.

(** Shorthands for the nested reads the recipes perform. *)
Definition slippage (s : PortalState) : number :=
  slippagePercentage (bridgeTransactionData s).

Definition sourceAddress (s : PortalState) : string :=
  address (token (sourceToken s)).

Definition destinationAddress (s : PortalState) : string :=
  address (token (destinationToken s)).

(** [setSlippageForStableSwap]: set slippage to the minimum that
    accommodates stable coin swaps. *)
Definition setSlippageForStableSwap (state : PortalState)
  (shouldStoreSlippage : bool) : PortalState :=
  let state :=
    if shouldStoreSlippage
    then with_nonStableSlippage
           (slippagePercentage (bridgeTransactionData state)) state
    else state in
  with_bridgeTransactionData
    (set_slippagePercentage STABLE_SWAP_SLIPPAGE (bridgeTransactionData state))
    state.

(** [setSlippageForNonStableSwap]: reset slippage to the value before the
    stable coin swap. *)
Definition setSlippageForNonStableSwap (state : PortalState) : PortalState :=
  if truthy (nonStableSlippage state)
     && strict_neq (slippagePercentage (bridgeTransactionData state))
                   (nonStableSlippage state)
  then with_bridgeTransactionData
         (set_slippagePercentage (nonStableSlippage state)
            (bridgeTransactionData state))
         state
  else state.

(** *** The actions, in the order of the source *)

Definition setStashedToken (tokenData : option TokenTransactionData)
  (state : PortalState) : PortalState :=
  with_stashedToken tokenData state.

Definition setHasUserUpdatedTokens (state : PortalState) : PortalState :=
  with_hasUserUpdatedTokens true state.

Definition resetTransactionData (state : PortalState) : PortalState :=
  let state :=
    with_bridgeTransactionData
      (BridgeTransactionData_resetTransactionData (bridgeTransactionData state))
      state in
  if InputType_eqb (lastChanged state) Source
  then with_destinationToken (set_amount "" (destinationToken state)) state
  else with_sourceToken (set_amount "" (sourceToken state)) state.

Definition resetTransactionDataAndAmounts (state : PortalState)
  : PortalState :=
  let state :=
    with_bridgeTransactionData
      (BridgeTransactionData_resetTransactionData (bridgeTransactionData state))
      state in
  let state := with_sourceToken (set_amount "" (sourceToken state)) state in
  with_destinationToken (set_amount "" (destinationToken state)) state.

Definition updateTransactionData
  (sourceAmount destAmount bridgeFee gasFee_ : string)
  (state : PortalState) : PortalState :=
  let state :=
    if negb (InputType_eqb (lastChanged state) Source)
    then with_sourceToken (set_amount sourceAmount (sourceToken state)) state
    else state in
  let state :=
    with_destinationToken (set_amount destAmount (destinationToken state))
      state in
  let state :=
    with_bridgeTransactionData
      (set_applicationFee (Number bridgeFee) (bridgeTransactionData state))
      state in
  let state :=
    with_bridgeTransactionData
      (set_setApplicationFeeUsd (Number bridgeFee)
         (bridgeTransactionData state))
      state in
  let state :=
    with_bridgeTransactionData
      (set_gasFee (Number gasFee_) (bridgeTransactionData state)) state in
  with_bridgeTransactionData
    (set_setGasFeeUsd (Number gasFee_) (bridgeTransactionData state)) state.

Definition setSourceChainGasTokenUsdValue (value : number)
  (state : PortalState) : PortalState :=
  with_bridgeTransactionData
    (set_sourceChainGasTokenUsdValue value (bridgeTransactionData state))
    state.

Definition setSlippagePercentage (slippage_ : number) (state : PortalState)
  : PortalState :=
  let state :=
    with_bridgeTransactionData
      (set_slippagePercentage slippage_ (bridgeTransactionData state))
      state in
  with_nonStableSlippage slippage_ state.

Definition resetSlippage (state : PortalState) : PortalState :=
  with_bridgeTransactionData
    (BridgeTransactionData_resetSlippage (bridgeTransactionData state)) state.

Definition setPriceImpactWarning (priceImpact : option number)
  (state : PortalState) : PortalState :=
  match priceImpact with
  | None =>
      with_bridgeTransactionData
        (set_priceImpactWarning None (bridgeTransactionData state)) state
  | Some impact =>
      if negb (truthy impact) || lt impact WARNING_THRESHOLD_PRICE_IMPACT
      then with_bridgeTransactionData
             (set_priceImpactWarning None (bridgeTransactionData state)) state
      else with_bridgeTransactionData
             (set_priceImpactWarning (Some (WARNING_PRICE_IMPACT impact))
                (bridgeTransactionData state))
             state
  end.

Definition setTxTimeWarning (estimatedTxTime_ : option number)
  (state : PortalState) : PortalState :=
  let state :=
    with_bridgeTransactionData
      (set_estimatedTxTime estimatedTxTime_ (bridgeTransactionData state))
      state in
  match estimatedTxTime_ with
  | None =>
      with_bridgeTransactionData
        (set_timeWarning None (bridgeTransactionData state)) state
  | Some seconds =>
      if negb (truthy seconds) || lt seconds WARNING_THRESHOLD_FIVE_MINUTES
      then with_bridgeTransactionData
             (set_timeWarning None (bridgeTransactionData state)) state
      else
        let readableTime := secondsToReadableTime seconds in
        with_bridgeTransactionData
          (set_timeWarning
             (Some ("The estimated waiting time to bridge is "
                      ++ readableTime ++ "."))
             (bridgeTransactionData state))
          state
  end.

Definition setTokenApprovalTxHash (txHash : string) (state : PortalState)
  : PortalState :=
  with_tokenApprovalTxHash (Some txHash) state.

Definition setSourceTokenAmount (amount_ : string) (state : PortalState)
  : PortalState :=
  let state := with_sourceToken (set_amount amount_ (sourceToken state)) state in
  with_lastChanged Source state.

Definition setSourceTokenAmountUsd (amount_ : string) (state : PortalState)
  : PortalState :=
  with_sourceToken (set_amountUsd amount_ (sourceToken state)) state.

Definition setDestinationTokenAmount (amount_ : string) (state : PortalState)
  : PortalState :=
  let state :=
    with_destinationToken (set_amount amount_ (destinationToken state)) state in
  with_lastChanged Destination state.

Definition setDestinationTokenAmountUsd (amount_ : string)
  (state : PortalState) : PortalState :=
  with_destinationToken (set_amountUsd amount_ (destinationToken state)) state.

Definition setSourceToken (tokenInfo : TokenInfo) (state : PortalState)
  : PortalState :=
  let previousSourceTokenAddress := address (token (sourceToken state)) in
  let state :=
    with_sourceToken
      (new_TokenTransactionData tokenInfo (Some (amount (sourceToken state))))
      state in
  if isTokenPairStable (address tokenInfo)
       (address (token (destinationToken state)))
  then
    let wasPreviousPairStable :=
      isTokenPairStable previousSourceTokenAddress
        (address (token (destinationToken state))) in
    setSlippageForStableSwap state (negb wasPreviousPairStable)
  else setSlippageForNonStableSwap state.

Definition setDestinationToken (tokenInfo : TokenInfo) (state : PortalState)
  : PortalState :=
  let previousDestTokenAddress := address (token (destinationToken state)) in
  let state :=
    with_destinationToken
      (new_TokenTransactionData tokenInfo
         (Some (amount (destinationToken state))))
      state in
  if isTokenPairStable (address tokenInfo)
       (address (token (sourceToken state)))
  then
    let wasPreviousPairStable :=
      isTokenPairStable previousDestTokenAddress
        (address (token (sourceToken state))) in
    setSlippageForStableSwap state (negb wasPreviousPairStable)
  else setSlippageForNonStableSwap state.

Definition swapSourceDestination (state : PortalState) : PortalState :=
  let currentSource := sourceToken state in
  let state := with_sourceToken (destinationToken state) state in
  let state := with_destinationToken currentSource state in
  with_hasUserUpdatedTokens true state.

Definition maxOutSourceToken (userBalance : string) (state : PortalState)
  : PortalState :=
  let state :=
    with_sourceToken (set_amount userBalance (sourceToken state)) state in
  with_lastChanged Source state.

(** *** The store as a transition system *)

(** One constructor per entry of [PortalActions], with its arguments. *)
Inductive Action : Type :=
  | SetStashedToken (tokenData : option TokenTransactionData)
  | SetHasUserUpdatedTokens
  | ResetTransactionData
  | ResetTransactionDataAndAmounts
  | UpdateTransactionData (sourceAmount destAmount bridgeFee gasFee_ : string)
  | SetSourceChainGasTokenUsdValue (value : number)
  | SetSlippagePercentage (slippage_ : number)
  | ResetSlippage
  | SetPriceImpactWarning (priceImpact : option number)
  | SetTxTimeWarning (estimatedTxTime_ : option number)
  | SetTokenApprovalTxHash (txHash : string)
  | SetSourceTokenAmount (amount_ : string)
  | SetSourceTokenAmountUsd (amount_ : string)
  | SetDestinationTokenAmount (amount_ : string)
  | SetDestinationTokenAmountUsd (amount_ : string)
  | SetSourceToken (tokenInfo : TokenInfo)
  | SetDestinationToken (tokenInfo : TokenInfo)
  | SwapSourceDestination
  | MaxOutSourceToken (userBalance : string).

Definition step (a : Action) (state : PortalState) : PortalState :=
  match a with
  | SetStashedToken t => setStashedToken t state
  | SetHasUserUpdatedTokens => setHasUserUpdatedTokens state
  | ResetTransactionData => resetTransactionData state
  | ResetTransactionDataAndAmounts => resetTransactionDataAndAmounts state
  | UpdateTransactionData sa da bf gf => updateTransactionData sa da bf gf state
  | SetSourceChainGasTokenUsdValue v => setSourceChainGasTokenUsdValue v state
  | SetSlippagePercentage x => setSlippagePercentage x state
  | ResetSlippage => resetSlippage state
  | SetPriceImpactWarning p => setPriceImpactWarning p state
  | SetTxTimeWarning t => setTxTimeWarning t state
  | SetTokenApprovalTxHash h => setTokenApprovalTxHash h state
  | SetSourceTokenAmount a => setSourceTokenAmount a state
  | SetSourceTokenAmountUsd a => setSourceTokenAmountUsd a state
  | SetDestinationTokenAmount a => setDestinationTokenAmount a state
  | SetDestinationTokenAmountUsd a => setDestinationTokenAmountUsd a state
  | SetSourceToken t => setSourceToken t state
  | SetDestinationToken t => setDestinationToken t state
  | SwapSourceDestination => swapSourceDestination state
  | MaxOutSourceToken b => maxOutSourceToken b state
  end.

(** The actions run one after the other, first call first. *)
Fixpoint run (calls : list Action) (state : PortalState) : PortalState :=
  match calls with
  | [] => state
  | a :: rest => run rest (step a state)
  end.

(** The state the store is created with.  The module first evaluates the
    four default tokens; a failing native-token lookup aborts the load, so
    there is no store then. *)
Definition initialState : option PortalState :=
  let defaultBridgeSourceToken := ApeCoinMainnetEthereum in
  match getNativeTokenInfoOrFail APE with
  | None => None
  | Some defaultBridgeDestinationToken =>
      match getNativeTokenInfoOrFail ETHEREUM with
      | None => None
      | Some defaultSwapSourceToken =>
          Some {|
            sourceToken :=
              new_TokenTransactionData defaultBridgeSourceToken None;
            destinationToken :=
              new_TokenTransactionData defaultBridgeDestinationToken None;
            stashedToken := None;
            bridgeTransactionData := new_BridgeTransactionData;
            destinationChain := chainId defaultBridgeDestinationToken;
            bridgeTransaction := None;
            tokenApprovalTxHash := None;
            lastChanged := Source;
            hasUserUpdatedTokens := false;
            nonStableSlippage := DEFAULT_SLIPPAGE
          |}
      end
  end.

(** The states the store can be in: the initial one and every state an
    action leads to from a reachable one. *)
Inductive reachable : PortalState -> Prop :=
  | reachable_initial :
      forall s0, initialState = Some s0 -> reachable s0
  | reachable_step :
      forall a s, reachable s -> reachable (step a s).

End Store.

(** ** Vocabulary of the properties *)

(** A number other than [+0] and [-0]; [NaN] is such a number. *)
Definition nonzero (x : number) : bool :=
  match x with
  | S754_zero _ => false
  | _ => true
  end.

(** The two actions that set an amount string typed into a slot. *)
Definition is_amount_setter (a : Action) : bool :=
  match a with
  | SetSourceTokenAmount _ => true
  | SetDestinationTokenAmount _ => true
  | _ => false
  end.

(** [needle] occurs in [text]. *)
Definition contains (text needle : string) : Prop :=
  exists before after : string, text = before ++ needle ++ after.

(** Modelled from the spec: the formatter [WARNING_PRICE_IMPACT] of
    [../utils/constants.ts], which is not among the sources.  The
    specification says that the payload it derives from an impact value is
    a non-empty warning that contains the value.  [payloadText] is the text
    a payload shows, [valueText] the text by which it shows a number. *)
Class FormatterContract {C : Collaborators} : Type := {
  payloadText : PriceImpactWarning -> string;
  valueText : number -> string;
  valueText_nonempty : forall x : number, valueText x <> "";
  payload_shows_value :
    forall x : number,
      contains (payloadText (WARNING_PRICE_IMPACT x)) (valueText x)
}.

(** The two actions that replace the token of a slot. *)
Definition is_token_setter (a : Action) : bool :=
  match a with
  | SetSourceToken _ => true
  | SetDestinationToken _ => true
  | _ => false
  end.

(** The three actions that hand the transaction data to one of its own
    methods ([resetTransactionData], [resetSlippage]). *)
Definition is_reset (a : Action) : bool :=
  match a with
  | ResetTransactionData => true
  | ResetTransactionDataAndAmounts => true
  | ResetSlippage => true
  | _ => false
  end.

Section PairTests.
Context {C : Collaborators}.

(** The test a token setter makes on the new pair: the new token's
    address first, the other slot's address second. *)
Definition newPairStable (a : Action) (s : PortalState) : bool :=
  match a with
  | SetSourceToken t => isTokenPairStable (address t) (destinationAddress s)
  | SetDestinationToken t => isTokenPairStable (address t) (sourceAddress s)
  | _ => false
  end.

(** The test a token setter makes on the pair it replaces: the replaced
    token's address first, the other slot's address second. *)
Definition previousPairStable (a : Action) (s : PortalState) : bool :=
  match a with
  | SetSourceToken _ =>
      isTokenPairStable (sourceAddress s) (destinationAddress s)
  | SetDestinationToken _ =>
      isTokenPairStable (destinationAddress s) (sourceAddress s)
  | _ => false
  end.

(** The pair in the store, read source first. *)
Definition pairStable (s : PortalState) : bool :=
  isTokenPairStable (sourceAddress s) (destinationAddress s).

(** Every call of the list is a token setter, and each of them leaves a
    stable/stable pair in the store. *)
Fixpoint stays_stable (calls : list Action) (s : PortalState) : bool :=
  match calls with
  | [] => true
  | a :: rest =>
      is_token_setter a && pairStable (step a s)
      && stays_stable rest (step a s)
  end.

(** The slippage is the remembered non-stable value or the stable-swap
    constant. *)
Definition slippage_settled (s : PortalState) : Prop :=
  slippage s = nonStableSlippage s \/ slippage s = STABLE_SWAP_SLIPPAGE.

End PairTests.

(** ** A concrete set of collaborators

    One instance of the interface, used to run the store on concrete
    calls.  Its classifier knows two stablecoins, its price-impact payload
    is a title and the impact value, its thresholds are the ones the
    specification names (5.0 and 300 seconds). *)
Module Sample.

Definition USDC : TokenInfo :=
  mkTokenInfo ETHEREUM "0xA0b86991c6218b36c1d19D4a2e9Eb0cE3606eB48" 6 "USDC".
Definition USDT : TokenInfo :=
  mkTokenInfo ETHEREUM "0xdAC17F958D2ee523a2206206994597C13D831ec7" 6 "USDT".
Definition WETH : TokenInfo :=
  mkTokenInfo ETHEREUM "0xC02aaA39b223FE8D0A0e5C4F27eAD9083C756Cc2" 18 "WETH".
Definition ApeCoin : TokenInfo :=
  mkTokenInfo ETHEREUM "0x4d224452801ACEd8B2F0aebE155379bb5D594381" 18 "APE".
Definition nativeAddress : string :=
  "0x0000000000000000000000000000000000000000".

Definition stablecoins : list string := [address USDC; address USDT].

Definition isStable (a : string) : bool := existsb (String.eqb a) stablecoins.

Definition nativeToken (c : ChainId) : option TokenInfo :=
  match c with
  | ETHEREUM => Some (mkTokenInfo ETHEREUM nativeAddress 18 "ETH")
  | APE => Some (mkTokenInfo APE nativeAddress 18 "APE")
  | OtherChain _ => None
  end.

Record Warning : Type := mkWarning {
  title : string;
  impact : number
}.

Definition emptyData : BridgeTransactionData Warning :=
  mkBridgeTransactionData (of_Z 1) (of_Z 0) (of_Z 0) (of_Z 0) (of_Z 0)
    (of_Z 0) None None None.

(** A stand-in for [Number] on the plain decimal literals the examples
    use: [ddd] and [ddd.ddd] of at most 15 significant digits, and the
    empty string, which is [0].  It is not the language's conversion:
    every other string (signed, padded, with an exponent, hexadecimal,
    [Infinity]) is [NaN] here. *)
Fixpoint decimalDigits (s : string) (n : Z) (k : nat) (dot seen : bool)
  : option (Z * nat) :=
  match s with
  | EmptyString => if seen then Some (n, k) else None
  | String c rest =>
      let d := (Z.of_N (Ascii.N_of_ascii c) - 48)%Z in
      if (0 <=? d)%Z && (d <=? 9)%Z
      then decimalDigits rest (10 * n + d)%Z (if dot then S k else k) dot true
      else if Ascii.eqb c "."%char && negb dot
           then decimalDigits rest n k true seen
           else None
  end.

Definition parseNumber (s : string) : number :=
  match s with
  | EmptyString => of_Z 0
  | _ =>
      match decimalDigits s 0 0 false false with
      | Some (n, k) => of_decimal n k
      | None => NaN
      end
  end.

#[export] Instance collaborators : Collaborators := {|
  PriceImpactWarning := Warning;
  WARNING_PRICE_IMPACT := mkWarning "High price impact";
  WARNING_THRESHOLD_PRICE_IMPACT := of_Z 5;
  WARNING_THRESHOLD_FIVE_MINUTES := of_Z 300;
  ApeCoinMainnetEthereum := ApeCoin;
  isTokenPairStable := fun a b => isStable a && isStable b;
  secondsToReadableTime := fun _ => "more than 5 minutes";
  getNativeTokenInfoOrFail := nativeToken;
  DEFAULT_SLIPPAGE := of_Z 1;
  STABLE_SWAP_SLIPPAGE := of_decimal 1 1;
  new_BridgeTransactionData := emptyData;
  BridgeTransactionData_resetTransactionData :=
    fun b => set_slippagePercentage (slippagePercentage b) emptyData;
  BridgeTransactionData_resetSlippage := set_slippagePercentage (of_Z 1);
  defaultAmount := "";
  defaultAmountUsd := "";
  Number := parseNumber
|}.

(** The store right after its creation. *)
Definition store0 : PortalState :=
  mkPortalState
    (mkTokenTransactionData ApeCoin "" "")
    (mkTokenTransactionData (mkTokenInfo APE nativeAddress 18 "APE") "" "")
    None emptyData APE None None Source false (of_Z 1).

(** A user types [NaN] as the slippage, then picks two stablecoins. *)
Definition stablePairAfterNaN : PortalState :=
  run [SetSlippagePercentage NaN; SetSourceToken USDC;
       SetDestinationToken USDT] store0.

(** A quote raised both warnings. *)
Definition warned : PortalState :=
  run [SetPriceImpactWarning (Some (of_Z 6));
       SetTxTimeWarning (Some (of_Z 301))] store0.

(** The user typed a destination amount last. *)
Definition destinationTyped : PortalState :=
  run [SetSourceTokenAmount "10"; SetDestinationTokenAmount "7"] store0.

End Sample.

(** A formatter for the sample collaborators: the title, the value in
    decimal and a percent sign.  Numbers are written out exactly (a double
    is a binary fraction, so its decimal expansion is finite). *)
Module SampleText.

Definition digit (n : N) : ascii := ascii_of_N (48 + n mod 10).

(** The decimal digits of [n] in front of [rest], as the first character
    and what follows it. *)
Fixpoint digitsOf (fuel : nat) (n : N) (rest : string) : ascii * string :=
  match fuel with
  | O => (digit n, rest)
  | S fuel' =>
      if (n / 10 =? 0)%N
      then (digit n, rest)
      else digitsOf fuel' (n / 10) (String (digit n) rest)
  end.

Definition integerText (n : N) (rest : string) : string :=
  let (first, others) := digitsOf (N.to_nat (N.log2 n)) n rest in
  String first others.

(** The decimal digits of the fraction [r / 2^k]. *)
Fixpoint fractionText (fuel : nat) (k r : N) : string :=
  match fuel with
  | O => ""
  | S fuel' =>
      if (r =? 0)%N
      then ""
      else String (digit (10 * r / 2 ^ k))
             (fractionText fuel' k ((10 * r) mod 2 ^ k))
  end.

(** The text of [m * 2^e]. *)
Definition magnitudeText (m : positive) (e : Z) : string :=
  match e with
  | Zneg k =>
      let scale := (2 ^ Npos k)%N in
      let r := (Npos m mod scale)%N in
      integerText (Npos m / scale)
        (if (r =? 0)%N
         then ""
         else String "." (fractionText (Pos.to_nat k) (Npos k) r))
  | _ => integerText (Npos m * 2 ^ Z.to_N e) ""
  end.

Definition numberText (x : number) : string :=
  match x with
  | S754_zero _ => "0"
  | S754_nan => "NaN"
  | S754_infinity sg => if sg then "-Infinity" else "Infinity"
  | S754_finite sg m e =>
      if sg then String "-" (magnitudeText m e) else magnitudeText m e
  end.

#[export] Instance formatter : @FormatterContract Sample.collaborators.
Proof.
  refine (@Build_FormatterContract Sample.collaborators
            (fun w : Sample.Warning =>
               Sample.title w ++ ": " ++ numberText (Sample.impact w) ++ "%")
            numberText _ _).
  - intros [sg | sg | | sg m e]; cbn [numberText];
      try discriminate; destruct sg; try discriminate.
    unfold magnitudeText, integerText.
    destruct e; match goal with
                | |- context [digitsOf ?f ?n ?r] => destruct (digitsOf f n r)
                end; discriminate.
  - intros x. exists "High price impact: ", "%". reflexivity.
Defined.

End SampleText.

(** ** Proof automation for the recipes *)

Ltac unfold_recipes :=
  unfold step, setStashedToken, setHasUserUpdatedTokens, resetTransactionData,
    resetTransactionDataAndAmounts, updateTransactionData,
    setSourceChainGasTokenUsdValue, setSlippagePercentage, resetSlippage,
    setPriceImpactWarning, setTxTimeWarning, setTokenApprovalTxHash,
    setSourceTokenAmount, setSourceTokenAmountUsd, setDestinationTokenAmount,
    setDestinationTokenAmountUsd, setSourceToken, setDestinationToken,
    swapSourceDestination, maxOutSourceToken, setSlippageForStableSwap,
    setSlippageForNonStableSwap, slippage, sourceAddress, destinationAddress.

Ltac case_conditions :=
  repeat match goal with
         | |- context [if ?c then _ else _] => destruct c eqn:?
         | |- context [match ?c with Some _ => _ | None => _ end] =>
             destruct c eqn:?
         end.

Ltac run_recipe := unfold_recipes; cbn; case_conditions; cbn.

(** ** Facts about numbers *)

Lemma SFcompare_Eq_finite (s1 s2 : bool) (m1 m2 : positive) (e1 e2 : Z) :
  SFcompare (S754_finite s1 m1 e1) (S754_finite s2 m2 e2) = Some Eq ->
  s1 = s2 /\ m1 = m2 /\ e1 = e2.
Proof.
  cbn [SFcompare]. intros Hm.
  destruct s1, s2; try discriminate Hm;
    destruct (Z.compare e1 e2) eqn:He; try discriminate Hm;
    apply Z.compare_eq in He; injection Hm as Hm.
  - apply (f_equal CompOpp) in Hm. rewrite CompOpp_involutive in Hm.
    cbn in Hm. apply Pos.compare_eq in Hm. auto.
  - apply Pos.compare_eq in Hm. auto.
Qed.

(** Two numbers that are [===] and truthy are the same value: the only
    distinct values that compare equal are the two zeros. *)
Lemma strict_eq_truthy (x y : number) :
  strict_eq x y = true -> truthy y = true -> x = y.
Proof.
  unfold strict_eq, SFeqb. intros He Ht.
  destruct x as [sx | sx | | sx mx ex], y as [sy | sy | | sy my ey];
    cbn in Ht; try discriminate Ht;
    try (cbn in He; discriminate He);
    try (destruct sy; cbn in He; discriminate He);
    try (destruct sx; cbn in He; discriminate He).
  - destruct sx, sy; cbn in He; try discriminate He; reflexivity.
  - destruct (SFcompare (S754_finite sx mx ex) (S754_finite sy my ey))
      as [[ | | ] | ] eqn:Hc; try discriminate He.
    apply SFcompare_Eq_finite in Hc. destruct Hc as (-> & -> & ->).
    reflexivity.
Qed.

Lemma truthy_nonzero (x : number) : truthy x = true -> nonzero x = true.
Proof. destruct x; cbn; congruence. Qed.

(** [NaN] is the one number that is nonzero and yet falsy. *)
Lemma nonzero_falsy_is_NaN (x : number) :
  nonzero x = true -> truthy x = false -> x = NaN.
Proof.
  destruct x; cbn; intros Hn Ht;
    first [ reflexivity | discriminate Hn | discriminate Ht ].
Qed.

Lemma lt_NaN_l (y : number) : lt NaN y = false.
Proof. reflexivity. Qed.

(** The restore test of [setSlippageForNonStableSwap] picks
    [nonStableSlippage] whenever that is truthy. *)
Lemma restore_choice (current saved : number) :
  (if truthy saved && strict_neq current saved then saved else current)
  = (if truthy saved then saved else current).
Proof.
  unfold strict_neq. destruct (truthy saved) eqn:Ht; cbn; [ | reflexivity ].
  destruct (SFeqb current saved) eqn:He; cbn; [ | reflexivity ].
  apply strict_eq_truthy; assumption.
Qed.

(** ** Facts about the store *)

Section StoreFacts.
Context {C : Collaborators}.

(** What each action does to [lastChanged]. *)
Lemma step_lastChanged (a : Action) (s : PortalState) :
  lastChanged (step a s) =
  match a with
  | SetSourceTokenAmount _ => Source
  | MaxOutSourceToken _ => Source
  | SetDestinationTokenAmount _ => Destination
  | _ => lastChanged s
  end.
Proof. destruct a; run_recipe; reflexivity. Qed.

(** What each action does to [hasUserUpdatedTokens]. *)
Lemma step_hasUserUpdatedTokens (a : Action) (s : PortalState) :
  hasUserUpdatedTokens (step a s) =
  match a with
  | SetHasUserUpdatedTokens => true
  | SwapSourceDestination => true
  | _ => hasUserUpdatedTokens s
  end.
Proof. destruct a; run_recipe; reflexivity. Qed.

Lemma run_app (xs ys : list Action) (s : PortalState) :
  run (xs ++ ys) s = run ys (run xs s).
Proof.
  revert s. induction xs as [ | a xs IH]; intros s; cbn; [ reflexivity | ].
  apply IH.
Qed.

Lemma reachable_run (calls : list Action) (s : PortalState) :
  reachable s -> reachable (run calls s).
Proof.
  revert s. induction calls as [ | a calls IH]; intros s Hs; cbn.
  - exact Hs.
  - apply IH. apply reachable_step. exact Hs.
Qed.

(** Once the flag is set, no sequence of actions clears it. *)
Lemma run_keeps_hasUserUpdatedTokens (calls : list Action) (s : PortalState) :
  hasUserUpdatedTokens s = true -> hasUserUpdatedTokens (run calls s) = true.
Proof.
  revert s. induction calls as [ | a calls IH]; intros s Hs; cbn.
  - exact Hs.
  - apply IH. rewrite step_hasUserUpdatedTokens. destruct a; auto.
Qed.

(** The two helpers behind the token setters. *)
Lemma setSlippageForStableSwap_slippage (s : PortalState) (store : bool) :
  slippage (setSlippageForStableSwap s store) = STABLE_SWAP_SLIPPAGE
  /\ nonStableSlippage (setSlippageForStableSwap s store)
     = (if store then slippage s else nonStableSlippage s).
Proof. destruct store; run_recipe; split; reflexivity. Qed.

Lemma setSlippageForNonStableSwap_slippage (s : PortalState) :
  slippage (setSlippageForNonStableSwap s)
  = (if truthy (nonStableSlippage s)
        && strict_neq (slippage s) (nonStableSlippage s)
     then nonStableSlippage s else slippage s)
  /\ nonStableSlippage (setSlippageForNonStableSwap s) = nonStableSlippage s.
Proof.
  unfold setSlippageForNonStableSwap, slippage.
  destruct (truthy (nonStableSlippage s)
            && strict_neq (slippagePercentage (bridgeTransactionData s))
                 (nonStableSlippage s));
    split; reflexivity.
Qed.

(** The slippage fields after each token setter, as the recipes compute
    them. *)
Lemma setSourceToken_slippage (t : TokenInfo) (s : PortalState) :
  slippage (setSourceToken t s)
  = (if isTokenPairStable (address t) (destinationAddress s)
     then STABLE_SWAP_SLIPPAGE
     else if truthy (nonStableSlippage s)
             && strict_neq (slippage s) (nonStableSlippage s)
          then nonStableSlippage s
          else slippage s)
  /\ nonStableSlippage (setSourceToken t s)
     = (if isTokenPairStable (address t) (destinationAddress s)
           && negb (isTokenPairStable (sourceAddress s) (destinationAddress s))
        then slippage s else nonStableSlippage s).
Proof.
  unfold setSourceToken, destinationAddress, sourceAddress. cbn.
  destruct (isTokenPairStable (address t)
              (address (token (destinationToken s)))).
  - match goal with
    | |- context [setSlippageForStableSwap ?st ?b] =>
        destruct (setSlippageForStableSwap_slippage st b) as [-> ->]
    end.
    destruct (isTokenPairStable (address (token (sourceToken s)))
                (address (token (destinationToken s))));
      cbn; split; reflexivity.
  - match goal with
    | |- context [setSlippageForNonStableSwap ?st] =>
        destruct (setSlippageForNonStableSwap_slippage st) as [-> ->]
    end.
    cbn. split; reflexivity.
Qed.

Lemma setDestinationToken_slippage (t : TokenInfo) (s : PortalState) :
  slippage (setDestinationToken t s)
  = (if isTokenPairStable (address t) (sourceAddress s)
     then STABLE_SWAP_SLIPPAGE
     else if truthy (nonStableSlippage s)
             && strict_neq (slippage s) (nonStableSlippage s)
          then nonStableSlippage s
          else slippage s)
  /\ nonStableSlippage (setDestinationToken t s)
     = (if isTokenPairStable (address t) (sourceAddress s)
           && negb (isTokenPairStable (destinationAddress s) (sourceAddress s))
        then slippage s else nonStableSlippage s).
Proof.
  unfold setDestinationToken, destinationAddress, sourceAddress. cbn.
  destruct (isTokenPairStable (address t)
              (address (token (sourceToken s)))).
  - match goal with
    | |- context [setSlippageForStableSwap ?st ?b] =>
        destruct (setSlippageForStableSwap_slippage st b) as [-> ->]
    end.
    destruct (isTokenPairStable (address (token (destinationToken s)))
                (address (token (sourceToken s))));
      cbn; split; reflexivity.
  - match goal with
    | |- context [setSlippageForNonStableSwap ?st] =>
        destruct (setSlippageForNonStableSwap_slippage st) as [-> ->]
    end.
    cbn. split; reflexivity.
Qed.

(** A token setter replaces its own slot and leaves the other one. *)
Lemma setSourceToken_slots (t : TokenInfo) (s : PortalState) :
  sourceToken (setSourceToken t s)
  = new_TokenTransactionData t (Some (amount (sourceToken s)))
  /\ destinationToken (setSourceToken t s) = destinationToken s.
Proof. run_recipe; split; reflexivity. Qed.

Lemma setDestinationToken_slots (t : TokenInfo) (s : PortalState) :
  destinationToken (setDestinationToken t s)
  = new_TokenTransactionData t (Some (amount (destinationToken s)))
  /\ sourceToken (setDestinationToken t s) = sourceToken s.
Proof. run_recipe; split; reflexivity. Qed.

(** One hop through a stable pair: the source goes from a token that is
    not stable against the destination to one that is, and on to one that
    is not.  A truthy slippage comes back. *)
Lemma slippage_recovered_after_stable_pair (t u : TokenInfo)
  (s : PortalState) :
  isTokenPairStable (sourceAddress s) (destinationAddress s) = false ->
  isTokenPairStable (address t) (destinationAddress s) = true ->
  isTokenPairStable (address u) (destinationAddress s) = false ->
  truthy (slippage s) = true ->
  slippage (setSourceToken t s) = STABLE_SWAP_SLIPPAGE
  /\ slippage (setSourceToken u (setSourceToken t s)) = slippage s.
Proof.
  intros Hprev Hnew Hnext Htruthy.
  destruct (setSourceToken_slippage t s) as [Hslip Hsaved].
  rewrite Hnew in Hslip, Hsaved. rewrite Hprev in Hsaved. cbn in Hsaved.
  split; [ exact Hslip | ].
  destruct (setSourceToken_slippage u (setSourceToken t s)) as [Hslip' _].
  assert (Hdest : destinationAddress (setSourceToken t s)
                  = destinationAddress s).
  { unfold destinationAddress.
    rewrite (proj2 (setSourceToken_slots t s)). reflexivity. }
  rewrite Hdest, Hnext, restore_choice, Hsaved, Htruthy in Hslip'.
  exact Hslip'.
Qed.

(** C1 (as amended).  After [setSourceToken t] (resp.
    [setDestinationToken t]): when the new pair, [t] against the other
    slot's token, is stable/stable, the slippage is [STABLE_SWAP_SLIPPAGE],
    and [nonStableSlippage] has taken the pre-call slippage exactly when the
    previous pair was not stable/stable (it keeps its value otherwise).
    When the new pair is not stable/stable, [nonStableSlippage] keeps its
    value and the slippage is set to it exactly when it is truthy (neither
    zero nor NaN) and differs ([!==]) from the current slippage; the
    slippage is unchanged otherwise.  Hence after a change to a pair that
    is not stable/stable the slippage is [nonStableSlippage] whenever that
    is truthy. *)
Theorem setToken_slippage_policy (t : TokenInfo) (s : PortalState) :
  (let newStable := isTokenPairStable (address t) (destinationAddress s) in
   let prevStable :=
     isTokenPairStable (sourceAddress s) (destinationAddress s) in
   let s' := setSourceToken t s in
   slippage s'
   = (if newStable then STABLE_SWAP_SLIPPAGE
      else if truthy (nonStableSlippage s)
              && strict_neq (slippage s) (nonStableSlippage s)
           then nonStableSlippage s
           else slippage s)
   /\ nonStableSlippage s'
      = (if newStable && negb prevStable
         then slippage s else nonStableSlippage s)
   /\ slippage s'
      = (if newStable then STABLE_SWAP_SLIPPAGE
         else if truthy (nonStableSlippage s)
              then nonStableSlippage s else slippage s))
  /\
  (let newStable := isTokenPairStable (address t) (sourceAddress s) in
   let prevStable :=
     isTokenPairStable (destinationAddress s) (sourceAddress s) in
   let s' := setDestinationToken t s in
   slippage s'
   = (if newStable then STABLE_SWAP_SLIPPAGE
      else if truthy (nonStableSlippage s)
              && strict_neq (slippage s) (nonStableSlippage s)
           then nonStableSlippage s
           else slippage s)
   /\ nonStableSlippage s'
      = (if newStable && negb prevStable
         then slippage s else nonStableSlippage s)
   /\ slippage s'
      = (if newStable then STABLE_SWAP_SLIPPAGE
         else if truthy (nonStableSlippage s)
              then nonStableSlippage s else slippage s)).
Proof.
  cbv zeta.
  destruct (setSourceToken_slippage t s) as [Hs Hs'].
  destruct (setDestinationToken_slippage t s) as [Hd Hd'].
  rewrite <- !restore_choice.
  repeat split; assumption.
Qed.

(** C2.  [updateTransactionData sourceAmount destAmount bridgeFee gasFee]
    sets the destination amount to [destAmount] whatever the state; it sets
    the source amount to [sourceAmount] exactly when [lastChanged] is not
    [Source] and leaves the source slot as it was otherwise; it sets
    [applicationFee] and its USD equivalent to [Number bridgeFee], and
    [gasFee] and its USD equivalent to [Number gasFee]. *)
Theorem updateTransactionData_writes
  (sourceAmount destAmount bridgeFee gasFee_ : string) (s : PortalState) :
  let s' := updateTransactionData sourceAmount destAmount bridgeFee gasFee_ s in
  destinationToken s' = set_amount destAmount (destinationToken s)
  /\ amount (destinationToken s') = destAmount
  /\ sourceToken s'
     = match lastChanged s with
       | Source => sourceToken s
       | Destination => set_amount sourceAmount (sourceToken s)
       end
  /\ amount (sourceToken s')
     = match lastChanged s with
       | Source => amount (sourceToken s)
       | Destination => sourceAmount
       end
  /\ applicationFee (bridgeTransactionData s') = Number bridgeFee
  /\ setApplicationFeeUsd (bridgeTransactionData s') = Number bridgeFee
  /\ gasFee (bridgeTransactionData s') = Number gasFee_
  /\ setGasFeeUsd (bridgeTransactionData s') = Number gasFee_.
Proof.
  cbv zeta. unfold updateTransactionData.
  destruct (lastChanged s) eqn:Hl; cbn; rewrite ?Hl; cbn;
    repeat split; reflexivity.
Qed.

(** C3 (as amended).  [setSourceTokenAmount amount] sets the source amount
    and [lastChanged = Source]; [setDestinationTokenAmount amount] sets the
    destination amount and [lastChanged = Destination];
    [maxOutSourceToken userBalance] sets the source amount and
    [lastChanged = Source].  These three are the only actions that write
    [lastChanged]: every other action leaves it as it was, in every state
    and for every argument. *)
Theorem lastChanged_writers :
  (forall amount_ s,
      amount (sourceToken (setSourceTokenAmount amount_ s)) = amount_
      /\ lastChanged (setSourceTokenAmount amount_ s) = Source)
  /\ (forall amount_ s,
      amount (destinationToken (setDestinationTokenAmount amount_ s)) = amount_
      /\ lastChanged (setDestinationTokenAmount amount_ s) = Destination)
  /\ (forall userBalance s,
      amount (sourceToken (maxOutSourceToken userBalance s)) = userBalance
      /\ lastChanged (maxOutSourceToken userBalance s) = Source)
  /\ (forall a s,
      lastChanged (step a s)
      = match a with
        | SetSourceTokenAmount _ => Source
        | SetDestinationTokenAmount _ => Destination
        | MaxOutSourceToken _ => Source
        | _ => lastChanged s
        end).
Proof.
  repeat split.
  intros a s. rewrite step_lastChanged. destruct a; reflexivity.
Qed.

(** C4.  [resetTransactionData] resets the bridge-transaction sub-object
    (by that object's own [resetTransactionData]) and empties exactly one
    amount: the destination amount when [lastChanged] is [Source], the
    source amount otherwise; the slot on the [lastChanged] side is
    untouched, and the emptied slot keeps its token and USD value.
    [resetTransactionDataAndAmounts] does the same reset of the sub-object
    and empties both amounts whatever [lastChanged] is. *)
Theorem resetTransactionData_amounts (s : PortalState) :
  (bridgeTransactionData (resetTransactionData s)
   = BridgeTransactionData_resetTransactionData (bridgeTransactionData s)
   /\ match lastChanged s with
      | Source =>
          destinationToken (resetTransactionData s)
          = set_amount "" (destinationToken s)
          /\ amount (destinationToken (resetTransactionData s)) = ""
          /\ sourceToken (resetTransactionData s) = sourceToken s
      | Destination =>
          sourceToken (resetTransactionData s)
          = set_amount "" (sourceToken s)
          /\ amount (sourceToken (resetTransactionData s)) = ""
          /\ destinationToken (resetTransactionData s) = destinationToken s
      end)
  /\
  (bridgeTransactionData (resetTransactionDataAndAmounts s)
   = BridgeTransactionData_resetTransactionData (bridgeTransactionData s)
   /\ sourceToken (resetTransactionDataAndAmounts s)
      = set_amount "" (sourceToken s)
   /\ destinationToken (resetTransactionDataAndAmounts s)
      = set_amount "" (destinationToken s)
   /\ amount (sourceToken (resetTransactionDataAndAmounts s)) = ""
   /\ amount (destinationToken (resetTransactionDataAndAmounts s)) = "").
Proof.
  unfold resetTransactionData, resetTransactionDataAndAmounts.
  destruct (lastChanged s) eqn:Hl; cbn; rewrite ?Hl; cbn;
    repeat split; reflexivity.
Qed.

(** C5.  One [swapSourceDestination] exchanges the two token-data slots
    wholesale; applying it twice gives back the original state except that
    [hasUserUpdatedTokens] is true, so both slots (tokens and amounts) are
    back to their original contents. *)
Theorem swapSourceDestination_twice (s : PortalState) :
  sourceToken (swapSourceDestination s) = destinationToken s
  /\ destinationToken (swapSourceDestination s) = sourceToken s
  /\ swapSourceDestination (swapSourceDestination s)
     = with_hasUserUpdatedTokens true s
  /\ sourceToken (swapSourceDestination (swapSourceDestination s))
     = sourceToken s
  /\ destinationToken (swapSourceDestination (swapSourceDestination s))
     = destinationToken s
  /\ hasUserUpdatedTokens (swapSourceDestination (swapSourceDestination s))
     = true.
Proof. destruct s; repeat split; reflexivity. Qed.

(** C8.  [setSlippagePercentage x] is idempotent: calling it twice in a
    row gives the state one call gives; after the call both
    [slippagePercentage] and [nonStableSlippage] are [x]. *)
Theorem setSlippagePercentage_idempotent (x : number) (s : PortalState) :
  setSlippagePercentage x (setSlippagePercentage x s)
  = setSlippagePercentage x s
  /\ slippage (setSlippagePercentage x s) = x
  /\ nonStableSlippage (setSlippagePercentage x s) = x.
Proof. destruct s; repeat split; reflexivity. Qed.

Lemma initialState_flag (s0 : PortalState) :
  initialState = Some s0 -> hasUserUpdatedTokens s0 = false.
Proof.
  unfold initialState.
  destruct (getNativeTokenInfoOrFail APE); [ | discriminate ].
  destruct (getNativeTokenInfoOrFail ETHEREUM); [ | discriminate ].
  intros H. injection H as <-. reflexivity.
Qed.

(** C9.  [hasUserUpdatedTokens] is a one-way latch.  It is false in the
    initial state; [setHasUserUpdatedTokens] sets it to true; and from a
    reachable state in which it is true, no action, and so no sequence of
    actions, leads to a state in which it is false. *)
Theorem hasUserUpdatedTokens_latch :
  (forall s0, initialState = Some s0 -> hasUserUpdatedTokens s0 = false)
  /\ (forall s, hasUserUpdatedTokens (setHasUserUpdatedTokens s) = true)
  /\ (forall a s,
      reachable s -> hasUserUpdatedTokens s = true ->
      hasUserUpdatedTokens (step a s) = true)
  /\ (forall calls s,
      reachable s -> hasUserUpdatedTokens s = true ->
      hasUserUpdatedTokens (run calls s) = true).
Proof.
  split; [ exact initialState_flag | ].
  split; [ reflexivity | ].
  split.
  - intros a s _ Hs. exact (run_keeps_hasUserUpdatedTokens [a] s Hs).
  - intros calls s _ Hs. exact (run_keeps_hasUserUpdatedTokens calls s Hs).
Qed.

(** C10.  [setSourceToken t] and [setDestinationToken t] leave
    [hasUserUpdatedTokens] and [lastChanged] as they were.  Over all the
    actions, [hasUserUpdatedTokens] is written by [swapSourceDestination]
    and [setHasUserUpdatedTokens] only, which set it to true. *)
Theorem setToken_frame (t : TokenInfo) (s : PortalState) :
  hasUserUpdatedTokens (setSourceToken t s) = hasUserUpdatedTokens s
  /\ lastChanged (setSourceToken t s) = lastChanged s
  /\ hasUserUpdatedTokens (setDestinationToken t s) = hasUserUpdatedTokens s
  /\ lastChanged (setDestinationToken t s) = lastChanged s
  /\ (forall a : Action,
      hasUserUpdatedTokens (step a s)
      = match a with
        | SwapSourceDestination => true
        | SetHasUserUpdatedTokens => true
        | _ => hasUserUpdatedTokens s
        end).
Proof.
  split; [ exact (step_hasUserUpdatedTokens (SetSourceToken t) s) | ].
  split; [ exact (step_lastChanged (SetSourceToken t) s) | ].
  split; [ exact (step_hasUserUpdatedTokens (SetDestinationToken t) s) | ].
  split; [ exact (step_lastChanged (SetDestinationToken t) s) | ].
  intros a. rewrite step_hasUserUpdatedTokens. destruct a; reflexivity.
Qed.

(** The warning fields after the two warning actions, as the recipes
    compute them. *)
Lemma setPriceImpactWarning_field (priceImpact : option number)
  (s : PortalState) :
  priceImpactWarning (bridgeTransactionData (setPriceImpactWarning priceImpact s))
  = match priceImpact with
    | None => None
    | Some x =>
        if negb (truthy x) || lt x WARNING_THRESHOLD_PRICE_IMPACT
        then None
        else Some (WARNING_PRICE_IMPACT x)
    end.
Proof. destruct priceImpact; run_recipe; reflexivity. Qed.

Lemma setTxTimeWarning_fields (estimate : option number) (s : PortalState) :
  estimatedTxTime (bridgeTransactionData (setTxTimeWarning estimate s))
  = estimate
  /\ timeWarning (bridgeTransactionData (setTxTimeWarning estimate s))
     = match estimate with
       | None => None
       | Some x =>
           if negb (truthy x) || lt x WARNING_THRESHOLD_FIVE_MINUTES
           then None
           else Some ("The estimated waiting time to bridge is "
                        ++ secondsToReadableTime x ++ ".")
       end.
Proof. destruct estimate; run_recipe; split; reflexivity. Qed.

Lemma falsy_or_below_spec (x bound : number) :
  negb (truthy x) || lt x bound = true
  <-> truthy x = false \/ lt x bound = true.
Proof.
  rewrite orb_true_iff, negb_true_iff. reflexivity.
Qed.



(** C7 (as amended).  [setTxTimeWarning estimatedTxTime] always records
    the estimate in [estimatedTxTime]; it clears the time warning if and
    only if the estimate is absent, falsy (zero or NaN) or below
    [WARNING_THRESHOLD_FIVE_MINUTES]; otherwise it sets the warning to the
    sentence built around [secondsToReadableTime estimatedTxTime], which
    therefore contains that rendering.  With the threshold at 300 seconds,
    input 250 clears the warning and input 301 sets a message containing
    the readable form of 301 seconds. *)
Theorem setTxTimeWarning_policy (estimate : option number) (s : PortalState) :
  let after e := bridgeTransactionData (setTxTimeWarning e s) in
  estimatedTxTime (after estimate) = estimate
  /\ (timeWarning (after estimate) = None
      <-> estimate = None
          \/ exists x, estimate = Some x
                       /\ (truthy x = false
                           \/ lt x WARNING_THRESHOLD_FIVE_MINUTES = true))
  /\ (timeWarning (after estimate) <> None ->
      exists x, estimate = Some x
                /\ timeWarning (after estimate)
                   = Some ("The estimated waiting time to bridge is "
                             ++ secondsToReadableTime x ++ "."))
  /\ (WARNING_THRESHOLD_FIVE_MINUTES = of_Z 300 ->
      timeWarning (after (Some (of_Z 250))) = None
      /\ exists message,
          timeWarning (after (Some (of_Z 301))) = Some message
          /\ contains message (secondsToReadableTime (of_Z 301))).
Proof.
  cbv beta zeta.
  split; [ exact (proj1 (setTxTimeWarning_fields estimate s)) | ].
  rewrite !(proj2 (setTxTimeWarning_fields _ s)).
  split; [ | split ].
  - destruct estimate as [x | ].
    + destruct (negb (truthy x) || lt x WARNING_THRESHOLD_FIVE_MINUTES)
        eqn:Hc.
      * apply falsy_or_below_spec in Hc. split; [ | reflexivity ].
        intros _. right. exists x. split; [ reflexivity | exact Hc ].
      * split; [ discriminate | ].
        intros [Habs | (y & Hy & Hc')]; [ discriminate Habs | ].
        injection Hy as <-. apply falsy_or_below_spec in Hc'. congruence.
    + split; [ intros _; left | ]; reflexivity.
  - destruct estimate as [x | ]; [ | intros H; now elim H ].
    destruct (negb (truthy x) || lt x WARNING_THRESHOLD_FIVE_MINUTES);
      intros H; [ now elim H | ].
    exists x. split; reflexivity.
  - intros ->. split; [ reflexivity | ].
    eexists. split; [ reflexivity | ].
    exists "The estimated waiting time to bridge is ", ".". reflexivity.
Qed.

End StoreFacts.

(** ** The store on concrete calls *)

Lemma store0_initial : initialState = Some Sample.store0.
Proof. reflexivity. Qed.

Lemma store0_reachable : reachable Sample.store0.
Proof. apply reachable_initial. exact store0_initial. Qed.

(** The numeric literals used below are doubles, so that [lt] and
    [strict_eq] compare them as the machine does. *)
Example literals_are_doubles :
  forallb is_double
    [of_decimal 49 1; of_Z 5; of_Z 6; of_Z 250; of_Z 300; of_Z 301;
     of_decimal 5 1; of_decimal 1 1; of_Z 0; NaN]
  = true.
Proof. vm_compute. reflexivity. Qed.

Example threshold_comparisons :
  lt (of_decimal 49 1) (of_Z 5) = true
  /\ lt (of_Z 6) (of_Z 5) = false
  /\ lt (of_Z 250) (of_Z 300) = true
  /\ lt (of_Z 301) (of_Z 300) = false
  /\ lt (of_Z 0) (of_Z 5) = true
  /\ lt NaN (of_Z 5) = false
  /\ truthy NaN = false.
Proof. vm_compute. repeat split; reflexivity. Qed.

(** The scenario of the specification: the user types 10 into the source
    field, then a quote arrives. *)
Example quote_after_typing_source :
  let s := run [SetSourceTokenAmount "10";
                UpdateTransactionData "10" "20" "0.5" "0.1"] Sample.store0 in
  lastChanged s = Source
  /\ amount (sourceToken s) = "10"
  /\ amount (destinationToken s) = "20"
  /\ applicationFee (bridgeTransactionData s) = of_decimal 5 1
  /\ gasFee (bridgeTransactionData s) = of_decimal 1 1.
Proof. cbv zeta. repeat split; vm_compute; reflexivity. Qed.

(** The slippage typed by the user comes back after one stable pair. *)
Example slippage_restored_after_stable_pair :
  let s := run [SetSlippagePercentage (of_Z 3); SetSourceToken Sample.USDC;
                SetDestinationToken Sample.USDT] Sample.store0 in
  slippage s = of_decimal 1 1
  /\ nonStableSlippage s = of_Z 3
  /\ slippage (setSourceToken Sample.WETH s) = of_Z 3.
Proof. cbv zeta. repeat split; vm_compute; reflexivity. Qed.

(** C1, counterexample.  The user enters [NaN] as slippage and then picks
    USDC and USDT: the stable pair pins the slippage to the stable-swap
    value and [nonStableSlippage] holds [NaN].  Now the source becomes
    WETH, so the pair is no longer stable/stable.  [nonStableSlippage] is
    nonzero and differs from the current slippage, yet the slippage is not
    set to it: it stays at the stable-swap value. *)
Lemma NaN_nonStableSlippage_is_not_restored :
  let s := Sample.stablePairAfterNaN in
  let s' := setSourceToken Sample.WETH s in
  reachable s
  /\ @isTokenPairStable Sample.collaborators
       (address Sample.WETH) (destinationAddress s) = false
  /\ nonzero (nonStableSlippage s) = true
  /\ strict_neq (slippage s) (nonStableSlippage s) = true
  /\ slippage s' = slippage s
  /\ ~ slippage s'
       = (if nonzero (nonStableSlippage s)
             && strict_neq (slippage s) (nonStableSlippage s)
          then nonStableSlippage s
          else slippage s).
Proof.
  cbv zeta. split.
  - unfold Sample.stablePairAfterNaN. apply reachable_run, store0_reachable.
  - repeat split; try (vm_compute; reflexivity).
    vm_compute. discriminate.
Qed.

(** C3, counterexample.  After the user typed a destination amount,
    [maxOutSourceToken], which is neither [setSourceTokenAmount] nor
    [setDestinationTokenAmount], moves [lastChanged] from [Destination] to
    [Source]. *)
Lemma maxOutSourceToken_writes_lastChanged :
  let s := Sample.destinationTyped in
  reachable s
  /\ is_amount_setter (MaxOutSourceToken "25") = false
  /\ lastChanged s = Destination
  /\ lastChanged (step (MaxOutSourceToken "25") s) = Source
  /\ ~ lastChanged (step (MaxOutSourceToken "25") s) = lastChanged s.
Proof.
  cbv zeta. split.
  - unfold Sample.destinationTyped. apply reachable_run, store0_reachable.
  - repeat split; try reflexivity. vm_compute. discriminate.
Qed.


(** C7, counterexample.  With the threshold at 300 seconds and a time
    warning showing, the estimate [NaN] is present and is not below the
    threshold, and the warning is cleared all the same. *)
Lemma NaN_estimate_clears_warning :
  let s := Sample.warned in
  let warning :=
    timeWarning (bridgeTransactionData (setTxTimeWarning (Some NaN) s)) in
  reachable s
  /\ timeWarning (bridgeTransactionData s) <> None
  /\ lt NaN (@WARNING_THRESHOLD_FIVE_MINUTES Sample.collaborators) = false
  /\ warning = None
  /\ ~ (warning = None
        <-> (Some NaN = @None number
             \/ lt NaN (@WARNING_THRESHOLD_FIVE_MINUTES Sample.collaborators)
                = true)).
Proof.
  cbv zeta. split.
  - unfold Sample.warned. apply reachable_run, store0_reachable.
  - split; [ vm_compute; discriminate | ].
    split; [ reflexivity | ].
    split; [ reflexivity | ].
    intros [H _]. destruct (H eq_refl) as [Habs | Hlt]; discriminate.
Qed.


(** The text the sample formatter shows for 6.0 and for 4.9. *)
Example sample_payload_text :
  SampleText.formatter.(payloadText)
    (Sample.mkWarning "High price impact" (of_Z 6))
  = "High price impact: 6%"
  /\ SampleText.numberText (of_decimal 49 1)
     = "4.9000000000000003552713678800500929355621337890625"
  /\ SampleText.numberText (of_Z 301) = "301"
  /\ SampleText.numberText (of_decimal 5 1) = "0.5".
Proof. vm_compute. repeat split; reflexivity. Qed.

(** C7 on the sample collaborators, whose threshold is 300 seconds: 250
    clears the warning that 301 raised, and 301 raises it. *)
Lemma setTxTimeWarning_policy_sample :
  timeWarning
    (bridgeTransactionData (setTxTimeWarning (Some (of_Z 250)) Sample.warned))
  = None
  /\ exists message,
      timeWarning
        (bridgeTransactionData
           (setTxTimeWarning (Some (of_Z 301)) Sample.warned))
      = Some message
      /\ contains message "more than 5 minutes".
Proof.
  exact (proj2 (proj2 (proj2 (@setTxTimeWarning_policy Sample.collaborators
                                None Sample.warned)))
           eq_refl).
Defined.

(** C9 on the sample collaborators: after a swap the flag is set, and it
    is still set after tokens, amounts and transaction data were changed
    and reset. *)
Lemma hasUserUpdatedTokens_latch_sample :
  hasUserUpdatedTokens
    (run [SetSourceToken Sample.USDC; SetDestinationTokenAmount "3";
          ResetTransactionDataAndAmounts; SetStashedToken None]
       (step SwapSourceDestination Sample.store0))
  = true.
Proof.
  apply (proj2 (proj2 (proj2 (@hasUserUpdatedTokens_latch
                                Sample.collaborators)))).
  - apply reachable_step. apply reachable_initial. reflexivity.
  - reflexivity.
Defined.

(** ** Further facts about numbers *)

Lemma SFcompare_refl_finite (sg : bool) (m : positive) (e : Z) :
  SFcompare (S754_finite sg m e) (S754_finite sg m e) = Some Eq.
Proof.
  cbn [SFcompare].
  destruct sg; rewrite Z.compare_refl, Pos.compare_cont_refl; reflexivity.
Qed.

(** No number is below itself. *)
Lemma lt_irrefl (x : number) : lt x x = false.
Proof.
  unfold lt, SFltb.
  destruct x as [sg | sg | | sg m e];
    [ reflexivity | destruct sg; reflexivity | reflexivity | ].
  rewrite SFcompare_refl_finite. reflexivity.
Qed.

(** A truthy number is [===] to itself. *)
Lemma strict_eq_refl (x : number) : truthy x = true -> strict_eq x x = true.
Proof.
  unfold strict_eq, SFeqb.
  destruct x as [sg | sg | | sg m e]; cbn [truthy]; try discriminate;
    intros _.
  - destruct sg; reflexivity.
  - rewrite SFcompare_refl_finite. reflexivity.
Qed.

(** The restore test of [setSlippageForNonStableSwap] fails when the
    slippage already is the remembered value. *)
Lemma restore_test_same (x : number) : truthy x && strict_neq x x = false.
Proof.
  destruct (truthy x) eqn:Ht; [ | reflexivity ].
  unfold strict_neq. fold (strict_eq x x). rewrite (strict_eq_refl x Ht).
  reflexivity.
Qed.

(** ** How the actions compose *)

Section StoreComposition.
Context {C : Collaborators}.

(** Writing back the slippage a record already holds changes nothing. *)
Lemma set_slippagePercentage_same
  (b : BridgeTransactionData PriceImpactWarning) :
  set_slippagePercentage (slippagePercentage b) b = b.
Proof. destruct b; reflexivity. Qed.

Lemma step_destinationChain (a : Action) (s : PortalState) :
  destinationChain (step a s) = destinationChain s.
Proof. destruct a; run_recipe; reflexivity. Qed.

Lemma step_tokenApprovalTxHash (a : Action) (s : PortalState) :
  tokenApprovalTxHash (step a s)
  = match a with
    | SetTokenApprovalTxHash h => Some h
    | _ => tokenApprovalTxHash s
    end.
Proof. destruct a; run_recipe; reflexivity. Qed.

Lemma step_stashedToken (a : Action) (s : PortalState) :
  stashedToken (step a s)
  = match a with
    | SetStashedToken t => t
    | _ => stashedToken s
    end.
Proof. destruct a; run_recipe; reflexivity. Qed.

(** The slippage fields after a token setter, in terms of its two tests. *)
Lemma token_setter_slippage (a : Action) (s : PortalState) :
  is_token_setter a = true ->
  slippage (step a s)
  = (if newPairStable a s then STABLE_SWAP_SLIPPAGE
     else if truthy (nonStableSlippage s)
          then nonStableSlippage s else slippage s)
  /\ nonStableSlippage (step a s)
     = (if newPairStable a s && negb (previousPairStable a s)
        then slippage s else nonStableSlippage s).
Proof.
  destruct a; try discriminate; intros _; cbn [step newPairStable
    previousPairStable]; rewrite <- restore_choice.
  - exact (setSourceToken_slippage tokenInfo s).
  - exact (setDestinationToken_slippage tokenInfo s).
Qed.

(** The addresses in the two slots after a token setter. *)
Lemma setSourceToken_addresses (t : TokenInfo) (s : PortalState) :
  sourceAddress (setSourceToken t s) = address t
  /\ destinationAddress (setSourceToken t s) = destinationAddress s.
Proof.
  unfold sourceAddress, destinationAddress.
  destruct (setSourceToken_slots t s) as [-> ->]. split; reflexivity.
Qed.

Lemma setDestinationToken_addresses (t : TokenInfo) (s : PortalState) :
  destinationAddress (setDestinationToken t s) = address t
  /\ sourceAddress (setDestinationToken t s) = sourceAddress s.
Proof.
  unfold sourceAddress, destinationAddress.
  destruct (setDestinationToken_slots t s) as [-> ->]. split; reflexivity.
Qed.

(** X1.  The store exists exactly when both native-token lookups made
    while the module loads succeed: the one for the APE chain, which gives
    the default destination, and the one for Ethereum, which the store
    itself does not use.  When it exists, its source token is
    [ApeCoinMainnetEthereum], its destination token is the native token of
    the APE chain, [destinationChain] is that token's chain, no token is
    stashed, there is no approval hash, and the remembered slippage is
    [DEFAULT_SLIPPAGE]. *)
Theorem initialState_fail_fast :
  (initialState = None
   <-> getNativeTokenInfoOrFail APE = None
       \/ getNativeTokenInfoOrFail ETHEREUM = None)
  /\ (forall s0,
      initialState = Some s0 ->
      token (sourceToken s0) = ApeCoinMainnetEthereum
      /\ getNativeTokenInfoOrFail APE = Some (token (destinationToken s0))
      /\ destinationChain s0 = chainId (token (destinationToken s0))
      /\ stashedToken s0 = None
      /\ tokenApprovalTxHash s0 = None
      /\ nonStableSlippage s0 = DEFAULT_SLIPPAGE).
Proof.
  unfold initialState.
  destruct (getNativeTokenInfoOrFail APE) as [d | ];
    destruct (getNativeTokenInfoOrFail ETHEREUM) as [e | ]; split.
  - split; [ discriminate | intros [H | H]; discriminate H ].
  - intros s0 H. injection H as <-. cbn. repeat split; reflexivity.
  - split; [ intros _; right; reflexivity | reflexivity ].
  - intros s0 H. discriminate H.
  - split; [ intros _; left; reflexivity | reflexivity ].
  - intros s0 H. discriminate H.
  - split; [ intros _; left; reflexivity | reflexivity ].
  - intros s0 H. discriminate H.
Qed.

(** X2.  No action writes [destinationChain]: after any sequence of
    actions it is what it was, and in particular [setDestinationToken]
    leaves it alone whatever the chain of the new destination token. *)
Theorem destinationChain_is_never_updated (calls : list Action)
  (s : PortalState) :
  destinationChain (run calls s) = destinationChain s
  /\ forall t, destinationChain (setDestinationToken t s) = destinationChain s.
Proof.
  split.
  - revert s. induction calls as [ | a calls IH]; intros s; cbn.
    + reflexivity.
    + rewrite IH. apply step_destinationChain.
  - intros t. exact (step_destinationChain (SetDestinationToken t) s).
Qed.

(** X3.  [tokenApprovalTxHash] is written by [setTokenApprovalTxHash] only,
    and [stashedToken] by [setStashedToken] only; neither reset action
    touches them.  So an approval hash, once present, is present after
    every sequence of actions. *)
Theorem tokenApprovalTxHash_is_never_cleared (calls : list Action)
  (s : PortalState) :
  (forall a,
      tokenApprovalTxHash (step a s)
      = match a with
        | SetTokenApprovalTxHash h => Some h
        | _ => tokenApprovalTxHash s
        end
      /\ stashedToken (step a s)
         = match a with
           | SetStashedToken t => t
           | _ => stashedToken s
           end)
  /\ (tokenApprovalTxHash s <> None ->
      tokenApprovalTxHash (run calls s) <> None).
Proof.
  split.
  - intros a. split;
      [ apply step_tokenApprovalTxHash | apply step_stashedToken ].
  - revert s. induction calls as [ | a calls IH]; intros s Hs; cbn.
    + exact Hs.
    + apply IH. rewrite step_tokenApprovalTxHash.
      destruct a; try exact Hs. discriminate.
Qed.

(** What each action does to the two slippage values. *)
Lemma step_slippage_values (a : Action) (s : PortalState) :
  nonStableSlippage (step a s)
  = match a with
    | SetSlippagePercentage x => x
    | SetSourceToken t => nonStableSlippage (setSourceToken t s)
    | SetDestinationToken t => nonStableSlippage (setDestinationToken t s)
    | _ => nonStableSlippage s
    end
  /\ slippage (step a s)
     = match a with
       | SetSlippagePercentage x => x
       | SetSourceToken t => slippage (setSourceToken t s)
       | SetDestinationToken t => slippage (setDestinationToken t s)
       | ResetSlippage =>
           slippagePercentage
             (BridgeTransactionData_resetSlippage (bridgeTransactionData s))
       | ResetTransactionData =>
           slippagePercentage
             (BridgeTransactionData_resetTransactionData
                (bridgeTransactionData s))
       | ResetTransactionDataAndAmounts =>
           slippagePercentage
             (BridgeTransactionData_resetTransactionData
                (bridgeTransactionData s))
       | _ => slippage s
       end.
Proof.
  destruct a; try (split; reflexivity); run_recipe; split; reflexivity.
Qed.

(** X4.  Which actions write the two slippage values.
    [nonStableSlippage] is written by [setSlippagePercentage] and by the
    two token setters only; in particular no reset touches it.  The active
    slippage is written by those three, by [resetSlippage] and by the two
    transaction-data resets (through the methods of the transaction data);
    the other thirteen actions leave both values as they were. *)
Theorem slippage_writers (a : Action) (s : PortalState) :
  nonStableSlippage (step a s)
  = match a with
    | SetSlippagePercentage x => x
    | SetSourceToken t => nonStableSlippage (setSourceToken t s)
    | SetDestinationToken t => nonStableSlippage (setDestinationToken t s)
    | _ => nonStableSlippage s
    end
  /\ slippage (step a s)
     = match a with
       | SetSlippagePercentage x => x
       | SetSourceToken t => slippage (setSourceToken t s)
       | SetDestinationToken t => slippage (setDestinationToken t s)
       | ResetSlippage =>
           slippagePercentage
             (BridgeTransactionData_resetSlippage (bridgeTransactionData s))
       | ResetTransactionData =>
           slippagePercentage
             (BridgeTransactionData_resetTransactionData
                (bridgeTransactionData s))
       | ResetTransactionDataAndAmounts =>
           slippagePercentage
             (BridgeTransactionData_resetTransactionData
                (bridgeTransactionData s))
       | _ => slippage s
       end.
Proof. exact (step_slippage_values a s). Qed.

Lemma setSourceToken_twice (t : TokenInfo) (s : PortalState) :
  setSourceToken t (setSourceToken t s) = setSourceToken t s.
Proof.
  destruct s as [src dst st b dc bt h lc f nss]. destruct b.
  unfold setSourceToken, setSlippageForStableSwap, setSlippageForNonStableSwap.
  cbn.
  destruct (isTokenPairStable (address t) (address (token dst))) eqn:Hn; cbn.
  - rewrite ?Hn; cbn.
    destruct (isTokenPairStable (address (token src)) (address (token dst)));
      cbn; rewrite ?Hn; cbn; reflexivity.
  - destruct (truthy nss && strict_neq slippagePercentage0 nss) eqn:Hr; cbn;
      rewrite ?Hn; cbn.
    + rewrite restore_test_same. reflexivity.
    + rewrite ?Hr. reflexivity.
Qed.

Lemma setDestinationToken_twice (t : TokenInfo) (s : PortalState) :
  setDestinationToken t (setDestinationToken t s) = setDestinationToken t s.
Proof.
  destruct s as [src dst st b dc bt h lc f nss]. destruct b.
  unfold setDestinationToken, setSlippageForStableSwap,
    setSlippageForNonStableSwap.
  cbn.
  destruct (isTokenPairStable (address t) (address (token src))) eqn:Hn; cbn.
  - rewrite ?Hn; cbn.
    destruct (isTokenPairStable (address (token dst)) (address (token src)));
      cbn; rewrite ?Hn; cbn; reflexivity.
  - destruct (truthy nss && strict_neq slippagePercentage0 nss) eqn:Hr; cbn;
      rewrite ?Hn; cbn.
    + rewrite restore_test_same. reflexivity.
    + rewrite ?Hr. reflexivity.
Qed.

(** X5.  A token setter puts the new token into its slot and keeps the
    amount that slot held.  The other slot is
    untouched, and within the transaction data only the slippage can
    change, so the fees, the warnings and the estimate of an earlier quote
    stay in place. *)
Theorem token_setters_keep_quote_data (t : TokenInfo) (s : PortalState) :
  (token (sourceToken (setSourceToken t s)) = t
   /\ amount (sourceToken (setSourceToken t s)) = amount (sourceToken s)
   /\ destinationToken (setSourceToken t s) = destinationToken s
   /\ bridgeTransactionData (setSourceToken t s)
      = set_slippagePercentage (slippage (setSourceToken t s))
          (bridgeTransactionData s))
  /\
  (token (destinationToken (setDestinationToken t s)) = t
   /\ amount (destinationToken (setDestinationToken t s))
      = amount (destinationToken s)
   /\ sourceToken (setDestinationToken t s) = sourceToken s
   /\ bridgeTransactionData (setDestinationToken t s)
      = set_slippagePercentage (slippage (setDestinationToken t s))
          (bridgeTransactionData s)).
Proof.
  destruct s as [src dst st b dc bt h lc f nss]. destruct b.
  split; run_recipe; repeat split; reflexivity.
Qed.

(** X6.  The token setters are idempotent: setting the same token twice
    in a row gives the state that setting it once gives, slippage values
    included. *)
Theorem token_setters_idempotent (t : TokenInfo) (s : PortalState) :
  setSourceToken t (setSourceToken t s) = setSourceToken t s
  /\ setDestinationToken t (setDestinationToken t s)
     = setDestinationToken t s.
Proof.
  split; [ apply setSourceToken_twice | apply setDestinationToken_twice ].
Qed.

(** X7.  [resetSlippage] does not reset the remembered value, so the next
    token setter whose new pair is not stable/stable undoes it: when
    [nonStableSlippage] is truthy, the slippage after that setter is
    [nonStableSlippage], whatever [resetSlippage] had put there. *)
Theorem resetSlippage_undone_by_token_setter (a : Action) (s : PortalState) :
  is_token_setter a = true ->
  newPairStable a s = false ->
  truthy (nonStableSlippage s) = true ->
  nonStableSlippage (resetSlippage s) = nonStableSlippage s
  /\ slippage (step a (resetSlippage s)) = nonStableSlippage s.
Proof.
  intros Ha Hnew Ht. split; [ reflexivity | ].
  destruct (token_setter_slippage a (resetSlippage s) Ha) as [Hslip _].
  assert (Hsame : newPairStable a (resetSlippage s) = newPairStable a s)
    by (destruct a; reflexivity).
  rewrite Hsame, Hnew in Hslip. cbn in Hslip. rewrite Ht in Hslip.
  exact Hslip.
Qed.

(** X8.  A slippage entered with [setSlippagePercentage] survives the next
    token setter: the remembered value is still the entered one, and the
    active slippage is the entered one unless the new pair is
    stable/stable, in which case it is the stable-swap constant. *)
Theorem entered_slippage_survives_token_setter (x : number) (a : Action)
  (s : PortalState) :
  is_token_setter a = true ->
  nonStableSlippage (step a (setSlippagePercentage x s)) = x
  /\ slippage (step a (setSlippagePercentage x s))
     = (if newPairStable a s then STABLE_SWAP_SLIPPAGE else x).
Proof.
  intros Ha.
  destruct (token_setter_slippage a (setSlippagePercentage x s) Ha)
    as [Hslip Hsaved].
  assert (Hn : newPairStable a (setSlippagePercentage x s)
               = newPairStable a s) by (destruct a; reflexivity).
  rewrite Hn in Hslip, Hsaved.
  change (nonStableSlippage (setSlippagePercentage x s)) with x
    in Hslip, Hsaved.
  change (slippage (setSlippagePercentage x s)) with x in Hslip, Hsaved.
  split.
  - rewrite Hsaved.
    destruct (newPairStable a s
              && negb (previousPairStable a (setSlippagePercentage x s)));
      reflexivity.
  - rewrite Hslip. destruct (newPairStable a s); [ reflexivity | ].
    destruct (truthy x); reflexivity.
Qed.

(** X9.  One hop through a stable pair.  A token setter that finds the
    pair it replaces not stable/stable and the new pair stable/stable pins
    the slippage to the stable-swap constant; if the next token setter
    finds its new pair not stable/stable, the slippage from before the hop
    is back, provided it was truthy. *)
Theorem slippage_round_trip_one_hop (a b : Action) (s : PortalState) :
  is_token_setter a = true ->
  is_token_setter b = true ->
  previousPairStable a s = false ->
  newPairStable a s = true ->
  newPairStable b (step a s) = false ->
  truthy (slippage s) = true ->
  slippage (step a s) = STABLE_SWAP_SLIPPAGE
  /\ slippage (step b (step a s)) = slippage s.
Proof.
  intros Ha Hb Hprev Hnew Hnext Ht.
  destruct (token_setter_slippage a s Ha) as [Hslip Hsaved].
  rewrite Hnew in Hslip, Hsaved. rewrite Hprev in Hsaved. cbn in Hsaved.
  split; [ exact Hslip | ].
  destruct (token_setter_slippage b (step a s) Hb) as [Hslip' _].
  rewrite Hnext, Hsaved, Ht in Hslip'. exact Hslip'.
Qed.

(** With a classifier that does not depend on the order of its
    arguments, both tests of a token setter are tests of the pair in the
    store: the one before the call and the one after it. *)
Lemma pair_tests_symmetric (a : Action) (s : PortalState) :
  (forall x y, isTokenPairStable x y = isTokenPairStable y x) ->
  is_token_setter a = true ->
  previousPairStable a s = pairStable s
  /\ newPairStable a s = pairStable (step a s).
Proof.
  intros Hsym Ha. unfold pairStable.
  destruct a; try discriminate Ha; cbn [step previousPairStable newPairStable].
  - destruct (setSourceToken_addresses tokenInfo s) as [-> ->].
    split; reflexivity.
  - destruct (setDestinationToken_addresses tokenInfo s) as [-> ->].
    split; apply Hsym.
Qed.

(** While token setters keep the pair stable/stable, the slippage stays
    pinned and the remembered value stays what it was. *)
Lemma stays_stable_keeps_saved (calls : list Action) (s : PortalState) :
  (forall x y, isTokenPairStable x y = isTokenPairStable y x) ->
  pairStable s = true ->
  slippage s = STABLE_SWAP_SLIPPAGE ->
  stays_stable calls s = true ->
  slippage (run calls s) = STABLE_SWAP_SLIPPAGE
  /\ nonStableSlippage (run calls s) = nonStableSlippage s.
Proof.
  intros Hsym. revert s.
  induction calls as [ | a calls IH]; intros s Hpair Hslip Hstay; cbn.
  - split; [ exact Hslip | reflexivity ].
  - cbn in Hstay. apply andb_true_iff in Hstay. destruct Hstay as [Hstay Hrest].
    apply andb_true_iff in Hstay. destruct Hstay as [Ha Hnext].
    destruct (pair_tests_symmetric a s Hsym Ha) as [Hprev Hnew].
    destruct (token_setter_slippage a s Ha) as [Hslip' Hsaved'].
    rewrite Hnew, Hnext in Hslip', Hsaved'.
    rewrite Hprev, Hpair in Hsaved'. cbn in Hsaved'.
    destruct (IH (step a s) Hnext Hslip' Hrest) as [H1 H2].
    split; [ exact H1 | ]. rewrite H2. exact Hsaved'.
Qed.

(** X10.  Any number of hops through stable pairs.  Let the classifier not
    depend on the order of its arguments.  From a pair that is not
    stable/stable and a truthy slippage, let one or more token setters each
    leave a stable/stable pair: the slippage is then the stable-swap
    constant and the remembered value is the slippage from before the
    first of them (later stable pairs do not overwrite it).  The first
    token setter that leaves a pair that is not stable/stable brings that
    slippage back. *)
Theorem slippage_survives_stable_pairs (calls : list Action) (b : Action)
  (s : PortalState) :
  (forall x y, isTokenPairStable x y = isTokenPairStable y x) ->
  pairStable s = false ->
  truthy (slippage s) = true ->
  calls <> [] ->
  stays_stable calls s = true ->
  is_token_setter b = true ->
  pairStable (step b (run calls s)) = false ->
  slippage (run calls s) = STABLE_SWAP_SLIPPAGE
  /\ nonStableSlippage (run calls s) = slippage s
  /\ slippage (step b (run calls s)) = slippage s.
Proof.
  intros Hsym Hpair Ht Hne Hstay Hb Hleave.
  destruct calls as [ | a calls]; [ now elim Hne | ].
  cbn in Hstay. apply andb_true_iff in Hstay. destruct Hstay as [Hstay Hrest].
  apply andb_true_iff in Hstay. destruct Hstay as [Ha Hnext].
  destruct (pair_tests_symmetric a s Hsym Ha) as [Hprev Hnew].
  destruct (token_setter_slippage a s Ha) as [Hslip Hsaved].
  rewrite Hnew, Hnext in Hslip, Hsaved.
  rewrite Hprev, Hpair in Hsaved. cbn in Hsaved.
  destruct (stays_stable_keeps_saved calls (step a s) Hsym Hnext Hslip Hrest)
    as [Hpinned Hkept].
  cbn [run] in *. rewrite Hkept, Hsaved.
  split; [ exact Hpinned | ]. split; [ reflexivity | ].
  destruct (pair_tests_symmetric b (run calls (step a s)) Hsym Hb)
    as [_ Hnewb].
  destruct (token_setter_slippage b (run calls (step a s)) Hb) as [Hslipb _].
  rewrite Hnewb, Hleave, Hkept, Hsaved, Ht in Hslipb. exact Hslipb.
Qed.

(** One action that is not a reset keeps the slippage settled. *)
Lemma step_keeps_slippage_settled (a : Action) (s : PortalState) :
  is_reset a = false -> slippage_settled s -> slippage_settled (step a s).
Proof.
  intros Hr Hs. unfold slippage_settled in *.
  destruct (is_token_setter a) eqn:Ha.
  - destruct (token_setter_slippage a s Ha) as [-> ->].
    destruct (newPairStable a s); [ right; reflexivity | ].
    cbn. destruct (truthy (nonStableSlippage s)); [ left; reflexivity | ].
    exact Hs.
  - destruct (step_slippage_values a s) as [Hsaved Hslip].
    destruct a; try discriminate Hr; try discriminate Ha;
      rewrite Hsaved, Hslip; first [ exact Hs | left; reflexivity ].
Qed.

(** X11.  As long as no reset runs, the active slippage is always either
    the remembered non-stable value or the stable-swap constant: if that
    holds in a state, it holds after every sequence of actions that
    contains none of [resetSlippage], [resetTransactionData] and
    [resetTransactionDataAndAmounts]. *)
Theorem slippage_settled_invariant (calls : list Action) (s : PortalState) :
  forallb (fun a => negb (is_reset a)) calls = true ->
  slippage_settled s ->
  slippage_settled (run calls s).
Proof.
  revert s. induction calls as [ | a calls IH]; intros s Hcalls Hs; cbn.
  - exact Hs.
  - cbn in Hcalls. apply andb_true_iff in Hcalls.
    destruct Hcalls as [Ha Hrest]. apply negb_true_iff in Ha.
    apply IH; [ exact Hrest | ].
    apply step_keeps_slippage_settled; assumption.
Qed.

(** X12.  [swapSourceDestination] exchanges the amounts but leaves
    [lastChanged] as it is, so a following [resetTransactionData] empties
    the amount the user typed: after typing a source amount, swapping and
    resetting, the destination slot is the old source slot with an empty
    amount and the source slot is the old destination slot, amount
    included; and likewise with the sides exchanged. *)
Theorem reset_after_swap_empties_typed_amount (typed : string)
  (s : PortalState) :
  (let s' :=
     resetTransactionData
       (swapSourceDestination (setSourceTokenAmount typed s)) in
   sourceToken s' = destinationToken s
   /\ destinationToken s' = set_amount "" (sourceToken s)
   /\ lastChanged s' = Source)
  /\
  (let s' :=
     resetTransactionData
       (swapSourceDestination (setDestinationTokenAmount typed s)) in
   destinationToken s' = sourceToken s
   /\ sourceToken s' = set_amount "" (destinationToken s)
   /\ lastChanged s' = Destination).
Proof. destruct s; split; repeat split; reflexivity. Qed.

(** X13.  A quote protects the typed amount on the source side only.
    After [setSourceTokenAmount typed] or [maxOutSourceToken typed],
    [updateTransactionData] leaves the source amount [typed]; after
    [setDestinationTokenAmount typed] it overwrites the destination amount
    with the quote's, and sets the source amount too. *)
Theorem quote_protects_source_amount_only
  (typed sourceAmount destAmount bridgeFee gasFee_ : string)
  (s : PortalState) :
  let quote := updateTransactionData sourceAmount destAmount bridgeFee gasFee_ in
  amount (sourceToken (quote (setSourceTokenAmount typed s))) = typed
  /\ amount (sourceToken (quote (maxOutSourceToken typed s))) = typed
  /\ amount (destinationToken (quote (setSourceTokenAmount typed s)))
     = destAmount
  /\ amount (destinationToken (quote (setDestinationTokenAmount typed s)))
     = destAmount
  /\ amount (sourceToken (quote (setDestinationTokenAmount typed s)))
     = sourceAmount.
Proof. repeat split; reflexivity. Qed.

(** X14.  The two warning actions write different fields, so they commute,
    and for each of them the last call wins. *)
Theorem warning_actions_commute (priceImpact priceImpact' : option number)
  (estimate estimate' : option number) (s : PortalState) :
  setPriceImpactWarning priceImpact (setTxTimeWarning estimate s)
  = setTxTimeWarning estimate (setPriceImpactWarning priceImpact s)
  /\ setPriceImpactWarning priceImpact (setPriceImpactWarning priceImpact' s)
     = setPriceImpactWarning priceImpact s
  /\ setTxTimeWarning estimate (setTxTimeWarning estimate' s)
     = setTxTimeWarning estimate s.
Proof.
  destruct s as [src dst st b dc bt h lc f nss]. destruct b.
  repeat split; destruct priceImpact, estimate; run_recipe; reflexivity.
Qed.

(** X15.  For quotes the last call wins: [updateTransactionData] after
    [updateTransactionData] gives the state the second call alone gives.
    A quote leaves [lastChanged], both slippage values and both warnings
    as they were. *)
Theorem updateTransactionData_last_wins
  (sourceAmount destAmount bridgeFee gasFee_ : string)
  (sourceAmount' destAmount' bridgeFee' gasFee' : string)
  (s : PortalState) :
  let quote := updateTransactionData sourceAmount destAmount bridgeFee gasFee_ in
  quote (updateTransactionData sourceAmount' destAmount' bridgeFee' gasFee' s)
  = quote s
  /\ lastChanged (quote s) = lastChanged s
  /\ slippage (quote s) = slippage s
  /\ nonStableSlippage (quote s) = nonStableSlippage s
  /\ priceImpactWarning (bridgeTransactionData (quote s))
     = priceImpactWarning (bridgeTransactionData s)
  /\ timeWarning (bridgeTransactionData (quote s))
     = timeWarning (bridgeTransactionData s).
Proof.
  destruct s as [src dst st b dc bt h lc f nss]. destruct b.
  destruct lc; repeat split; reflexivity.
Qed.

(** X16.  Both thresholds are inclusive: the comparison is a strict
    [<], so an input equal to a truthy threshold raises the warning. *)
Theorem warnings_raised_at_threshold (s : PortalState) :
  (truthy WARNING_THRESHOLD_PRICE_IMPACT = true ->
   priceImpactWarning
     (bridgeTransactionData
        (setPriceImpactWarning (Some WARNING_THRESHOLD_PRICE_IMPACT) s))
   = Some (WARNING_PRICE_IMPACT WARNING_THRESHOLD_PRICE_IMPACT))
  /\
  (truthy WARNING_THRESHOLD_FIVE_MINUTES = true ->
   timeWarning
     (bridgeTransactionData
        (setTxTimeWarning (Some WARNING_THRESHOLD_FIVE_MINUTES) s))
   = Some ("The estimated waiting time to bridge is "
             ++ secondsToReadableTime WARNING_THRESHOLD_FIVE_MINUTES ++ ".")).
Proof.
  split; intros Ht.
  - rewrite setPriceImpactWarning_field, Ht, lt_irrefl. reflexivity.
  - rewrite (proj2 (setTxTimeWarning_fields _ s)), Ht, lt_irrefl.
    reflexivity.
Qed.

End StoreComposition.

(** ** The composition facts on concrete calls *)

Lemma sample_classifier_symmetric (x y : string) :
  @isTokenPairStable Sample.collaborators x y
  = @isTokenPairStable Sample.collaborators y x.
Proof. cbn. apply andb_comm. Qed.

(** X1 on the sample collaborators: both lookups succeed, and the store
    starts with ApeCoin on Ethereum against the native token of the APE
    chain. *)
Lemma initialState_fail_fast_sample :
  token (sourceToken Sample.store0) = Sample.ApeCoin
  /\ Sample.nativeToken APE = Some (token (destinationToken Sample.store0))
  /\ destinationChain Sample.store0 = APE
  /\ stashedToken Sample.store0 = None
  /\ tokenApprovalTxHash Sample.store0 = None
  /\ nonStableSlippage Sample.store0 = of_Z 1.
Proof.
  exact (proj2 (@initialState_fail_fast Sample.collaborators)
           Sample.store0 eq_refl).
Defined.

(** X3 on the sample collaborators: the approval hash outlives both
    resets and a swap. *)
Lemma tokenApprovalTxHash_is_never_cleared_sample :
  tokenApprovalTxHash
    (run [ResetTransactionDataAndAmounts; ResetTransactionData;
          SwapSourceDestination; ResetSlippage]
       (setTokenApprovalTxHash "0x5c1d" Sample.store0))
  <> None.
Proof.
  apply (proj2 (@tokenApprovalTxHash_is_never_cleared Sample.collaborators
                  _ _)).
  cbn. discriminate.
Defined.

(** X7 on the sample collaborators: the user enters 3, resets the
    slippage, then picks WETH as source; the slippage is 3 again. *)
Lemma resetSlippage_undone_by_token_setter_sample :
  let s := setSlippagePercentage (of_Z 3) Sample.store0 in
  slippage (resetSlippage s) = of_Z 1
  /\ slippage (step (SetSourceToken Sample.WETH) (resetSlippage s)) = of_Z 3.
Proof.
  cbv zeta. split; [ reflexivity | ].
  apply (@resetSlippage_undone_by_token_setter Sample.collaborators
           (SetSourceToken Sample.WETH)
           (setSlippagePercentage (of_Z 3) Sample.store0));
    reflexivity.
Defined.

(** X8 on the sample collaborators: 3 is entered and USDT becomes the
    destination against ApeCoin. *)
Lemma entered_slippage_survives_token_setter_sample :
  nonStableSlippage
    (step (SetDestinationToken Sample.USDT)
       (setSlippagePercentage (of_Z 3) Sample.store0))
  = of_Z 3
  /\ slippage
       (step (SetDestinationToken Sample.USDT)
          (setSlippagePercentage (of_Z 3) Sample.store0))
     = of_Z 3.
Proof.
  exact (@entered_slippage_survives_token_setter Sample.collaborators
           (of_Z 3) (SetDestinationToken Sample.USDT) Sample.store0 eq_refl).
Defined.

(** X9 on the sample collaborators: USDC is the source; USDT becomes the
    destination, then WETH the source. *)
Lemma slippage_round_trip_one_hop_sample :
  let s := setSourceToken Sample.USDC Sample.store0 in
  slippage (step (SetDestinationToken Sample.USDT) s) = of_decimal 1 1
  /\ slippage
       (step (SetSourceToken Sample.WETH)
          (step (SetDestinationToken Sample.USDT) s))
     = of_Z 1.
Proof.
  cbv zeta.
  apply (@slippage_round_trip_one_hop Sample.collaborators
           (SetDestinationToken Sample.USDT) (SetSourceToken Sample.WETH)
           (setSourceToken Sample.USDC Sample.store0));
    reflexivity.
Defined.

(** X10 on the sample collaborators: three stable pairs in a row, reached
    from either side, then WETH. *)
Lemma slippage_survives_stable_pairs_sample :
  let s := setSourceToken Sample.USDC Sample.store0 in
  let hops := [SetDestinationToken Sample.USDT; SetSourceToken Sample.USDT;
               SetDestinationToken Sample.USDC] in
  slippage (run hops s) = of_decimal 1 1
  /\ nonStableSlippage (run hops s) = of_Z 1
  /\ slippage (step (SetSourceToken Sample.WETH) (run hops s)) = of_Z 1.
Proof.
  cbv zeta.
  apply (@slippage_survives_stable_pairs Sample.collaborators
           [SetDestinationToken Sample.USDT; SetSourceToken Sample.USDT;
            SetDestinationToken Sample.USDC]
           (SetSourceToken Sample.WETH)
           (setSourceToken Sample.USDC Sample.store0)).
  - exact sample_classifier_symmetric.
  - reflexivity.
  - reflexivity.
  - discriminate.
  - reflexivity.
  - reflexivity.
  - reflexivity.
Defined.

(** X11 on the sample collaborators: token changes, an entered slippage
    and a swap, and no reset. *)
Lemma slippage_settled_invariant_sample :
  slippage_settled
    (run [SetSourceToken Sample.USDC; SetDestinationToken Sample.USDT;
          SetSlippagePercentage (of_Z 3); SwapSourceDestination;
          UpdateTransactionData "1" "2" "0.5" "0.1";
          SetSourceToken Sample.WETH]
       Sample.store0).
Proof.
  apply (@slippage_settled_invariant Sample.collaborators).
  - reflexivity.
  - left. reflexivity.
Defined.

(** X16 on the sample collaborators, whose thresholds are 5.0 and 300
    seconds. *)
Lemma warnings_raised_at_threshold_sample :
  priceImpactWarning
    (bridgeTransactionData
       (setPriceImpactWarning (Some (of_Z 5)) Sample.store0))
  = Some (Sample.mkWarning "High price impact" (of_Z 5))
  /\ timeWarning
       (bridgeTransactionData (setTxTimeWarning (Some (of_Z 300)) Sample.store0))
     = Some "The estimated waiting time to bridge is more than 5 minutes.".
Proof.
  exact (conj
           (proj1 (@warnings_raised_at_threshold Sample.collaborators
                     Sample.store0) eq_refl)
           (proj2 (@warnings_raised_at_threshold Sample.collaborators
                     Sample.store0) eq_refl)).
Defined.

Section UsdValues.
Context {C : Collaborators}.

(** X17.  Which actions write the USD strings of the two slots.  Each is
    set by its own setter, moves with its slot in
    [swapSourceDestination], and is replaced with its slot by that slot's
    token setter.  Every other action leaves it as it was: typing an
    amount, maxing out, a quote and both resets empty or overwrite amounts
    without touching the USD strings. *)
Theorem amountUsd_writers (a : Action) (s : PortalState) :
  amountUsd (sourceToken (step a s))
  = match a with
    | SetSourceTokenAmountUsd u => u
    | SetSourceToken t => amountUsd (sourceToken (setSourceToken t s))
    | SwapSourceDestination => amountUsd (destinationToken s)
    | _ => amountUsd (sourceToken s)
    end
  /\ amountUsd (destinationToken (step a s))
     = match a with
       | SetDestinationTokenAmountUsd u => u
       | SetDestinationToken t =>
           amountUsd (destinationToken (setDestinationToken t s))
       | SwapSourceDestination => amountUsd (sourceToken s)
       | _ => amountUsd (destinationToken s)
       end.
Proof.
  destruct a; try (split; reflexivity); run_recipe; split; reflexivity.
Qed.

End UsdValues.
